(** * blpapi-http: the configuration module [lib/config.ts]

    A shallow embedding of the configuration resolver of the gateway:
    the schema literal, the derived option bundles built by the
    initialization block, the revocation-list watcher, the change emitter
    and the accessor [get].

    The module is dynamically typed, so configuration values are modelled
    by a small type of JavaScript values; the option bundles are records;
    [otherConf] is a finite map from property names to bundles; the
    initialization block is written in a state-and-exception monad over the
    module's variables. *)

From Stdlib Require Import ZArith Ascii String.
From stdpp Require Import gmap strings list fin_maps pretty.

Set Warnings "-register-all".

Open Scope Z_scope.

(** ** JavaScript values *)

(** Contents of a file as returned by [fs.readFileSync]. *)
Definition Buffer : Type := list Byte.byte.

(** The values that flow through the module.  Every number of the schema is
    an integer ('port' and 'integer' formats), so numbers are [Z]. *)
Inductive value : Type :=
  | VUndefined
  | VNull
  | VBool (b : bool)
  | VNum (n : Z)
  | VStr (s : string)
  | VObj (o : gmap string value).

(** [ToBoolean]: what [if (v)] and [!v] test. *)
Definition truthy (v : value) : bool :=
  match v with
  | VUndefined | VNull => false
  | VBool b => b
  | VNum n => negb (n =? 0)
  | VStr s => negb (String.eqb s "")
  | VObj _ => true
  end.

(** [String(v)], the rendering of a [%s] argument by [util.format]. *)
Definition js_String (v : value) : string :=
  match v with
  | VUndefined => "undefined"
  | VNull => "null"
  | VBool true => "true"
  | VBool false => "false"
  | VNum n => pretty n
  | VStr s => s
  | VObj _ => "[object Object]"
  end.

(** [v.k] for a property [k] that no prototype defines: the own property of
    an object, [undefined] when it is missing or when [v] is a boolean, a
    number or a string; reading a property of [undefined] or [null] throws
    a TypeError, which is [None] here. *)
Definition get_prop (v : value) (k : string) : option value :=
  match v with
  | VUndefined | VNull => None
  | VObj o => Some (default VUndefined (o !! k))
  | _ => Some VUndefined
  end.

(** [v !== s] for a string literal [s]. *)
Definition strict_ne_str (s : string) (v : value) : bool :=
  match v with
  | VStr s' => negb (String.eqb s s')
  | _ => true
  end.

(** [name.split('.')] *)
Fixpoint split_on (c : ascii) (s : string) : list string :=
  match s with
  | EmptyString => [EmptyString]
  | String a s' =>
      if Ascii.eqb a c then EmptyString :: split_on c s'
      else match split_on c s' with
           | w :: ws => String a w :: ws
           | [] => [String a EmptyString]
           end
  end.

(** Walking a path of property names down nested objects. *)
Fixpoint walk (p : list string) (t : value) : option value :=
  match p with
  | [] => Some t
  | k :: p' =>
      match t with
      | VObj o => match o !! k with Some c => walk p' c | None => None end
      | _ => None
      end
  end.

(** Setting the value at a path, creating the objects on the way. *)
Fixpoint set_path (p : list string) (v : value) (t : value) : value :=
  match p with
  | [] => v
  | k :: p' =>
      let o := match t with VObj o => o | _ => ∅ end in
      VObj (<[k := set_path p' v (default (VObj ∅) (o !! k))]> o)
  end.

(** ** The response serializer (config.ts, lines 239-247) *)

(** [None] when the function throws. *)
Definition res_serializer (res : value) : option value :=
  if negb (truthy res) then Some res
  else
    sc ← get_prop res "statusCode";
    if negb (truthy sc) then Some res
    else
      h ← get_prop res "_headers";
      Some (VObj (<["statusCode" := sc]> (<["header" := h]> ∅))).

(** ** The certificate serializer (config.ts, lines 249-254) *)

(** [cert && {CN: cert.subject.CN, fingerprint: cert.fingerprint}];
    [None] when the function throws. *)
Definition cert_serializer (cert : value) : option value :=
  if negb (truthy cert) then Some cert
  else
    subject ← get_prop cert "subject";
    cn ← get_prop subject "CN";
    fp ← get_prop cert "fingerprint";
    Some (VObj (<["CN" := cn]> (<["fingerprint" := fp]> ∅))).

(** ** The schema (config.ts, lines 31-229) *)

Inductive format : Type :=
  | FIpaddress      (* 'ipaddress' *)
  | FPort           (* 'port' *)
  | FInteger        (* 'integer' *)
  | FString         (* String *)
  | FBoolean.       (* Boolean *)

Record SchemaEntry : Type := {
  e_path : list string;
  e_doc : string;
  e_format : format;
  e_default : value;
  e_env : option string;
  e_arg : option string
}.

(** One entry of the literal; every entry declares an [arg]. *)
Definition entry (p : list string) (d : string) (f : format) (dv : value)
    (env : option string) (arg : string) : SchemaEntry :=
  {| e_path := p; e_doc := d; e_format := f; e_default := dv;
     e_env := env; e_arg := Some arg |}.

Definition schema : list SchemaEntry := [
  entry ["api"; "host"] "The Bloomberg Open API server address"
        FIpaddress (VStr "127.0.0.1") (Some "BLPAPI_HTTP_API_HOST") "api-host";
  entry ["api"; "port"] "The Bloomberg Open API server port"
        FPort (VNum 8194) (Some "BLPAPI_HTTP_API_PORT") "api-port";
  entry ["api"; "authenticationMode"]
        "The authentication mode to use for B-PIPE Authorization"
        FString (VStr "APPLICATION_ONLY")
        (Some "BLPAPI_HTTP_API_AUTHENTICATION_MODE") "api-authenticationMode";
  entry ["api"; "authenticationAppName"]
        "The application name for authentication purposes"
        FString (VStr "")
        (Some "BLPAPI_HTTP_API_AUTHENTICATION_APPNAME") "api-authenticationAppName";
  entry ["port"] "The http port to listen on"
        FPort (VNum 80) (Some "BLPAPI_HTTP_PORT") "port";
  entry ["expiration"] "Auto-expiration period of blpSession in seconds"
        FInteger (VNum 5) None "session-expiration";
  entry ["https"; "enable"]
        "Boolean option to control whether the server runs on https mode"
        FBoolean (VBool false) None "https-enable";
  entry ["https"; "ca"] "HTTPS server ca"
        FString (VStr "../keys/bloomberg-ca-crt.pem") None "https-ca";
  entry ["https"; "cert"] "HTTPS server certification"
        FString (VStr "../keys/hackathon-crt.pem") None "https-cert";
  entry ["https"; "key"] "HTTPS server key"
        FString (VStr "../keys/hackathon-key.pem") None "https-key";
  entry ["https"; "crl"] "HTTPS server certificate revocation list"
        FString (VStr "") None "https-crl";
  entry ["logging"; "stdout"]
        "Boolean option to control whether to log to stdout"
        FBoolean (VBool true) None "logging-stdout";
  entry ["logging"; "stdoutLevel"] "Log level to for stdout"
        FString (VStr "info") None "logging-stdoutLevel";
  entry ["logging"; "logfile"] "Log file path"
        FString (VStr "blpapi-http.log") None "logging-logfile";
  entry ["logging"; "logfileLevel"] "Log level to for log file"
        FString (VStr "trace") None "logging-logfileLevel";
  entry ["logging"; "reqBody"]
        "Boolean option to control whether to log request body"
        FBoolean (VBool false) None "logging-reqBody";
  entry ["logging"; "clientDetail"]
        "Boolean option to control whether to log client details"
        FBoolean (VBool false) None "logging-clientDetail";
  entry ["service"; "name"] "The service name"
        FString (VStr "BLPAPI-HTTP") None "service-name";
  entry ["service"; "version"] "The service version"
        FString (VStr "1.0.0") None "service-version";
  entry ["maxBodySize"] "Maximum size of the request body in byte"
        FInteger (VNum 1024) None "maxBodySize";
  entry ["throttle"; "burst"] "Throttle burst"
        FInteger (VNum 100) None "throttle-burst";
  entry ["throttle"; "rate"] "Throttle rate"
        FInteger (VNum 50) None "throttle-rate";
  entry ["websocket"; "socket-io"; "enable"]
        "Boolean option to control whether to run socket.io server"
        FBoolean (VBool true) None "websocket-socket-io-enable";
  entry ["websocket"; "socket-io"; "port"] "The socket io port to listen on"
        FPort (VNum 3001) None "websocket-socket-io-port";
  entry ["websocket"; "ws"; "enable"]
        "Boolean option to control whether to run ws server"
        FBoolean (VBool true) None "websocket-ws-enable";
  entry ["websocket"; "ws"; "port"] "The ws port to listen on"
        FPort (VNum 3002) None "websocket-ws-port";
  entry ["longpoll"; "maxbuffersize"]
        "Maximum buffer size for subscription data"
        FInteger (VNum 50) None "longpoll-maxbuffersize";
  entry ["longpoll"; "pollfrequency"]
        "Data checking frequency when poll request arrives"
        FInteger (VNum 100) None "longpoll-pollfrequency";
  entry ["longpoll"; "polltimeout"] "Server side poll request timeout in ms"
        FInteger (VNum 30000) None "longpoll-polltimeout"
].

(** The dotted name of a schema path, as passed to [get]. *)
Definition dotted (p : list string) : string := String.concat "." p.

(** No key path of a schema is another one or leads into another one:
    neither of two paths is a prefix of the other. *)
Definition unrelated (p q : list string) : bool :=
  bool_decide (~ p `prefix_of` q /\ ~ q `prefix_of` p).

Fixpoint paths_unrelated (ps : list (list string)) : bool :=
  match ps with
  | [] => true
  | p :: ps' => forallb (unrelated p) ps' && paths_unrelated ps'
  end.

(** ** What the runtime provides *)

(** The module runs on Node.js; the functions of the platform and of the
    libraries it loads that matter here are gathered in one interface:
    the directory of the module, [path.resolve], the parser of the optional
    configuration file, and the recogniser of IP-address syntax used by the
    'ipaddress' format. *)
Class Platform : Type := {
  __dirname : string;
  path_resolve : string -> string -> string;
  parse_config : Buffer -> option value;
  is_ip : string -> bool
}.

(** The file system at one instant: the files that can be read, with their
    contents. *)
Definition FS : Type := gmap string Buffer.

(** ** The settings store *)

(** Modelled from the spec: the layered resolution of the schema library
    (its code is not part of the module).  For each schema entry, strict
    precedence, highest first: the command-line argument if the entry
    declares a flag and it was supplied, the environment variable if
    declared and set, the value of the optional configuration file if the
    key is present there, the default of the entry. *)
Definition resolve_entry (file : option value) (environ argv : gmap string value)
    (e : SchemaEntry) : value :=
  match e_arg e ≫= (argv !!.) with
  | Some v => v
  | None =>
      match e_env e ≫= (environ !!.) with
      | Some v => v
      | None =>
          match file ≫= walk (e_path e) with
          | Some v => v
          | None => e_default e
          end
      end
  end.

(** Modelled from the spec: the resolved store, a tree that mirrors the
    nesting of the schema, holding the resolved value of every entry. *)
Definition resolve (sch : list SchemaEntry) (file : option value)
    (environ argv : gmap string value) : value :=
  foldr (fun e t => set_path (e_path e) (resolve_entry file environ argv e) t)
        (VObj ∅) sch.

(** Modelled from the spec: the check of one value against a format:
    IP-address syntax, integer in the range 1 to 65535 for a port, plain
    integer, boolean, arbitrary string. *)
Definition check_format `{Platform} (f : format) (v : value) : bool :=
  match f, v with
  | FIpaddress, VStr s => is_ip s
  | FPort, VNum n => (1 <=? n) && (n <=? 65535)
  | FInteger, VNum _ => true
  | FBoolean, VBool _ => true
  | FString, VStr _ => true
  | _, _ => false
  end.

(** Modelled from the spec: an entry is in order when the store holds a
    value at its key path and the value passes its format. *)
Definition entry_ok `{Platform} (t : value) (e : SchemaEntry) : bool :=
  match walk (e_path e) t with
  | Some v => check_format (e_format e) v
  | None => false
  end.

(** Modelled from the spec: validation stops at the first entry whose value
    fails its format and reports the key path and the expected format. *)
Fixpoint first_violation `{Platform} (sch : list SchemaEntry) (t : value)
    : option (list string * format) :=
  match sch with
  | [] => None
  | e :: sch' =>
      if entry_ok t e then first_violation sch' t
      else Some (e_path e, e_format e)
  end.

(** A store that passes validation. *)
Definition valid `{Platform} (t : value) : Prop :=
  first_violation schema t = None.

(** Modelled from the spec: the lookup of the store, a dotted-path
    traversal into the nested entries; [None] is the not-found
    condition. *)
Definition store_get (t : value) (name : string) : option value :=
  walk (split_on "." name) t.

(** ** Exceptions *)

Inductive exn : Type :=
  | SchemaValidationError (key : list string) (expected : format)
  | SourceParseError (cfg : value)
  | NotFound (name : string)            (* the store has no such setting *)
  | ReadError (path : string)           (* thrown by [fs.readFileSync] *)
  | TypeError (what : string)
  | Error (message : string).           (* [throw new Error(message)] *)

(** ** The option bundles *)

Inductive StreamTarget : Type :=
  | ToPath (path : value)
  | ToStdout.

Record Stream : Type := {
  level : value;
  target : StreamTarget
}.

(** The entries of [bunyan.stdSerializers]: those shipped by the logging
    library, and the two this module installs. *)
Inductive Serializer : Type :=
  | SerLibrary (name : string)
  | SerRes                    (* the function [res_serializer] *)
  | SerCert.                  (* the certificate serializer, lines 249-254 *)

Record LoggerOptions : Type := {
  logger_name : value;
  streams : list Stream;
  serializers : gmap string Serializer
}.

Record BodyParserOptions : Type := {
  maxBodySize : value;
  mapParams : bool
}.

Record Override : Type := {
  override_rate : Z;
  override_burst : Z
}.

Record ThrottleOptions : Type := {
  burst : value;
  rate : value;
  ip : bool;
  overrides : gmap string Override
}.

Record HttpsServerOptions : Type := {
  key : Buffer;
  cert : Buffer;
  ca : Buffer;
  requestCert : bool;
  rejectUnauthorized : bool;
  crl : option Buffer
}.

Record ServerOptions : Type := {
  name : value;
  version : value;
  acceptable : list string;
  httpsServerOptions : option HttpsServerOptions
}.

Record BlpapiSessionOptions : Type := {
  serverHost : value;
  serverPort : value;
  authenticationOptions : option string
}.

Record SessionOptions : Type := {
  blpapiSessionOptions : BlpapiSessionOptions;
  authorizeOnStartup : bool
}.

Inductive Bundle : Type :=
  | BLogger (o : LoggerOptions)
  | BBodyParser (o : BodyParserOptions)
  | BThrottle (o : ThrottleOptions)
  | BServer (o : ServerOptions)
  | BSession (o : SessionOptions).

(** [o.crl = buf] and [so.httpsServerOptions = o] *)
Definition with_crl (buf : Buffer) (o : HttpsServerOptions) : HttpsServerOptions :=
  {| key := key o; cert := cert o; ca := ca o;
     requestCert := requestCert o; rejectUnauthorized := rejectUnauthorized o;
     crl := Some buf |}.

Definition with_https (o : HttpsServerOptions) (so : ServerOptions) : ServerOptions :=
  {| name := name so; version := version so; acceptable := acceptable so;
     httpsServerOptions := Some o |}.

(** ** The state of the module *)

(** A subscriber of the emitter, identified by a number. *)
Definition Listener : Type := nat.

(** What the module does to the outside, in order. *)
Inductive effect : Type :=
  | EReadFileSync (path : string)
  | EWatch (path : string)
  | EDeliver (l : Listener) (event : string) (payload : string).

Record State : Type := {
  convictConf : value;                       (* var convictConf *)
  otherConf : gmap string Bundle;            (* var otherConf, own properties *)
  stdSerializers : gmap string Serializer;   (* bunyan.stdSerializers *)
  listeners : gmap string (list Listener);   (* emitter *)
  watches : list string;                     (* paths with an armed fs.watch *)
  effects : list effect
}.

Definition set_convictConf (c : value) (s : State) : State :=
  {| convictConf := c; otherConf := otherConf s;
     stdSerializers := stdSerializers s; listeners := listeners s;
     watches := watches s; effects := effects s |}.

Definition set_otherConf (o : gmap string Bundle) (s : State) : State :=
  {| convictConf := convictConf s; otherConf := o;
     stdSerializers := stdSerializers s; listeners := listeners s;
     watches := watches s; effects := effects s |}.

Definition set_stdSerializers (m : gmap string Serializer) (s : State) : State :=
  {| convictConf := convictConf s; otherConf := otherConf s;
     stdSerializers := m; listeners := listeners s;
     watches := watches s; effects := effects s |}.

Definition set_listeners (m : gmap string (list Listener)) (s : State) : State :=
  {| convictConf := convictConf s; otherConf := otherConf s;
     stdSerializers := stdSerializers s; listeners := m;
     watches := watches s; effects := effects s |}.

Definition add_watch (p : string) (s : State) : State :=
  {| convictConf := convictConf s; otherConf := otherConf s;
     stdSerializers := stdSerializers s; listeners := listeners s;
     watches := watches s ++ [p]; effects := effects s |}.

Definition log (es : list effect) (s : State) : State :=
  {| convictConf := convictConf s; otherConf := otherConf s;
     stdSerializers := stdSerializers s; listeners := listeners s;
     watches := watches s; effects := effects s ++ es |}.

(** The module before its initialization block runs: both variables are
    declared and not yet assigned, the emitter has been created. *)
Definition loaded (std : gmap string Serializer) : State :=
  {| convictConf := VUndefined; otherConf := ∅; stdSerializers := std;
     listeners := ∅; watches := []; effects := [] |}.

(** ** A monad for the statements of the module *)

Inductive outcome (A : Type) : Type :=
  | Return (a : A)
  | Throw (e : exn).
Arguments Return {A} a.
Arguments Throw {A} e.

Definition M (A : Type) : Type := State -> outcome A * State.

Definition ret {A} (a : A) : M A := fun s => (Return a, s).

Definition throw {A} (e : exn) : M A := fun s => (Throw e, s).

Definition bind {A B} (m : M A) (k : A -> M B) : M B :=
  fun s =>
    match m s with
    | (Return a, s') => k a s'
    | (Throw e, s') => (Throw e, s')
    end.

Definition modify (f : State -> State) : M unit := fun s => (Return tt, f s).

Definition read {A} (f : State -> A) : M A := fun s => (Return (f s), s).

Declare Scope js_scope.
Delimit Scope js_scope with js.
Notation "'let!' x := m 'in' k" := (bind m (fun x => k))
  (at level 10, x name, m at level 100, k at level 200,
   format "'[v' 'let!'  x  :=  m  'in' '/' k ']'") : js_scope.
Notation "m ;; k" := (bind m (fun _ => k))
  (at level 100, k at level 200, right associativity) : js_scope.
Open Scope js_scope.

(** ** The statements of the module *)

Section Source.
Context `{Platform}.

(** Modelled from the spec: [convictConf.get(name)], the lookup of the
    schema library, which throws when the store has no such setting. *)
Definition convict_get (name : string) : M value :=
  fun s =>
    match store_get (convictConf s) name with
    | Some v => (Return v, s)
    | None => (Throw (NotFound name), s)
    end.

(** [fs.readFileSync(p)] on the file system [fs] *)
Definition readFileSync (fs : FS) (p : string) : M Buffer :=
  fun s =>
    match fs !! p with
    | Some b => (Return b, log [EReadFileSync p] s)
    | None => (Throw (ReadError p), log [EReadFileSync p] s)
    end.

(** [path.resolve(__dirname, v)] *)
Definition resolve_from_dirname (v : value) : M string :=
  match v with
  | VStr p => ret (path_resolve __dirname p)
  | _ => throw (TypeError "Arguments to path.resolve must be strings")
  end.

(** [fs.readFileSync(path.resolve(__dirname, convictConf.get(name)))] *)
Definition read_setting_file (fs : FS) (name : string) : M Buffer :=
  let! v := convict_get name in
  let! p := resolve_from_dirname v in
  readFileSync fs p.

(** [otherConf[k] = b] *)
Definition assign (k : string) (b : Bundle) : M unit :=
  modify (fun s => set_otherConf (<[k := b]> (otherConf s)) s).

(** [otherConf['serverOptions']] when it holds the server bundle *)
Definition serverOptions_of (s : State) : option ServerOptions :=
  match otherConf s !! "serverOptions" with
  | Some (BServer so) => Some so
  | _ => None
  end.

(** [otherConf['serverOptions'].httpsServerOptions = o] *)
Definition assign_https (o : HttpsServerOptions) : M unit :=
  fun s =>
    match serverOptions_of s with
    | Some so =>
        (Return tt,
         set_otherConf (<["serverOptions" := BServer (with_https o so)]> (otherConf s)) s)
    | None => (Throw (TypeError "Cannot set property 'httpsServerOptions'"), s)
    end.

(** [otherConf['serverOptions'].httpsServerOptions.crl = buf] *)
Definition assign_crl (buf : Buffer) : M unit :=
  fun s =>
    match serverOptions_of s ≫= httpsServerOptions with
    | Some o =>
        match serverOptions_of s with
        | Some so =>
            (Return tt,
             set_otherConf
               (<["serverOptions" := BServer (with_https (with_crl buf o) so)]>
                  (otherConf s)) s)
        | None => (Throw (TypeError "Cannot set property 'crl'"), s)
        end
    | None => (Throw (TypeError "Cannot set property 'crl'"), s)
    end.

(** [emitter.emit(ev, payload)]: every listener registered for [ev] is
    called once, in registration order, with the payload.  (Listeners are
    taken to return: one that throws would end the delivery.) *)
Definition emit (ev payload : string) : M unit :=
  fun s =>
    (Return tt,
     log (map (fun l => EDeliver l ev payload) (default [] (listeners s !! ev))) s).

(** [emitter.on(ev, l)] *)
Definition on (ev : string) (l : Listener) : M unit :=
  modify (fun s =>
    set_listeners (<[ev := default [] (listeners s !! ev) ++ [l]]> (listeners s)) s).

(** The callback registered on the revocation list (lines 311-315). *)
Definition crl_changed (fs : FS) (crlPath : string) : M unit :=
  let! buf := readFileSync fs crlPath in
  assign_crl buf ;;
  emit "change" "https.crl".

(** [fs.watch(p, crl_changed)] *)
Definition watch (p : string) : M unit :=
  modify (fun s => log [EWatch p] (add_watch p s)).

(** Modelled from the spec: [convictConf.loadFile(cfg)] of the schema
    library.  The file is read and parsed, and its values take their place
    among the sources; a file that cannot be read or parsed is fatal. *)
Definition loadFile (fs : FS) (environ argv : gmap string value) (cfg : value)
    : M unit :=
  match cfg with
  | VStr p =>
      match fs !! p ≫= parse_config with
      | Some file => modify (set_convictConf (resolve schema (Some file) environ argv))
      | None => throw (SourceParseError cfg)
      end
  | _ => throw (SourceParseError cfg)
  end.

(** Modelled from the spec: [convictConf.validate()] of the schema library,
    which throws at the first violation. *)
Definition validate : M unit :=
  fun s =>
    match first_violation schema (convictConf s) with
    | None => (Return tt, s)
    | Some (k, f) => (Throw (SchemaValidationError k f), s)
    end.

(** Lines 239-254: the two serializers are installed in the table of the
    logging library. *)
Definition install_serializers : M unit :=
  modify (fun s =>
    set_stdSerializers (<["cert" := SerCert]> (<["res" := SerRes]> (stdSerializers s))) s).

(** Lines 255-267 *)
Definition build_loggerOptions : M unit :=
  let! lvl := convict_get "logging.logfileLevel" in
  let! pth := convict_get "logging.logfile" in
  let! out := convict_get "logging.stdout" in
  let! strs :=
    (if truthy out then
       let! l := convict_get "logging.stdoutLevel" in
       ret [ {| level := lvl; target := ToPath pth |};
             {| level := l; target := ToStdout |} ]
     else ret [ {| level := lvl; target := ToPath pth |} ]) in
  let! nm := convict_get "service.name" in
  let! ser := read stdSerializers in
  assign "loggerOptions"
    (BLogger {| logger_name := nm; streams := strs; serializers := ser |}).

(** Lines 270-273 *)
Definition build_bodyParserOptions : M unit :=
  let! sz := convict_get "maxBodySize" in
  assign "bodyParserOptions"
    (BBodyParser {| maxBodySize := sz; mapParams := false |}).

(** Lines 276-286 *)
Definition build_throttleOptions : M unit :=
  let! b := convict_get "throttle.burst" in
  let! r := convict_get "throttle.rate" in
  assign "throttleOptions"
    (BThrottle {| burst := b; rate := r; ip := true;
                  overrides := <["127.0.0.1" :=
                                   {| override_rate := 0; override_burst := 0 |}]> ∅ |}).

(** Lines 289-317 *)
Definition build_serverOptions (fs : FS) : M unit :=
  let! nm := convict_get "service.name" in
  let! ver := convict_get "service.version" in
  assign "serverOptions"
    (BServer {| name := nm; version := ver; acceptable := ["application/json"];
                httpsServerOptions := None |}) ;;
  let! en := convict_get "https.enable" in
  if truthy en then
    let! k := read_setting_file fs "https.key" in
    let! c := read_setting_file fs "https.cert" in
    let! a := read_setting_file fs "https.ca" in
    assign_https {| key := k; cert := c; ca := a; requestCert := true;
                    rejectUnauthorized := true; crl := None |} ;;
    let! crlv := convict_get "https.crl" in
    if truthy crlv then
      let! crlv' := convict_get "https.crl" in
      let! crlPath := resolve_from_dirname crlv' in
      let! buf := readFileSync fs crlPath in
      assign_crl buf ;;
      watch crlPath
    else ret tt
  else ret tt.

(** Lines 320-349 *)
Definition build_sessionOptions : M unit :=
  let! host := convict_get "api.host" in
  let! port := convict_get "api.port" in
  let! appName := convict_get "api.authenticationAppName" in
  let! auth :=
    (if strict_ne_str "" appName then
       let! mode := convict_get "api.authenticationMode" in
       if strict_ne_str "APPLICATION_ONLY" mode then
         throw (Error ("Bad value for api.authenticationMode: " +:+ js_String mode))
       else
         ret (true,
              Some ("AuthenticationMode=" +:+ js_String mode +:+
                    ";ApplicationAuthenticationType=APPNAME_AND_KEY;ApplicationName="
                    +:+ js_String appName))
     else ret (false, None)) in
  assign "sessionOptions"
    (BSession {| blpapiSessionOptions :=
                   {| serverHost := host; serverPort := port;
                      authenticationOptions := snd auth |};
                 authorizeOnStartup := fst auth |}).

(** The initialization block (lines 26-351). *)
Definition initialize (fs : FS) (environ argv : gmap string value) : M unit :=
  modify (set_otherConf ∅) ;;
  modify (set_convictConf (resolve schema None environ argv)) ;;
  (if truthy (default VUndefined (argv !! "cfg"))
   then loadFile fs environ argv (default VUndefined (argv !! "cfg"))
   else ret tt) ;;
  validate ;;
  install_serializers ;;
  build_loggerOptions ;;
  build_bodyParserOptions ;;
  build_throttleOptions ;;
  build_serverOptions fs ;;
  build_sessionOptions.

(** ** The accessor (lines 14-21) *)

(** The properties every object inherits from [Object.prototype]. *)
Definition Object_prototype : list string :=
  [ "constructor"; "toString"; "toLocaleString"; "valueOf"; "hasOwnProperty";
    "isPrototypeOf"; "propertyIsEnumerable"; "__defineGetter__";
    "__defineSetter__"; "__lookupGetter__"; "__lookupSetter__"; "__proto__" ].

(** [name in o]: own property, or property found on the prototype chain. *)
Definition has_property (o : gmap string Bundle) (name : string) : bool :=
  bool_decide (is_Some (o !! name)) || bool_decide (name ∈ Object_prototype).

(** What [get] hands back: a bundle of [otherConf], a member inherited by
    [otherConf] from its prototype, or a value of the store. *)
Inductive got : Type :=
  | GotBundle (b : Bundle)
  | GotInherited (name : string)
  | GotValue (v : value).

Definition get (name : string) : M got :=
  fun s =>
    if has_property (otherConf s) name then
      match otherConf s !! name with
      | Some b => (Return (GotBundle b), s)
      | None => (Return (GotInherited name), s)
      end
    else
      match store_get (convictConf s) name with
      | Some v => (Return (GotValue v), s)
      | None => (Throw (NotFound name), s)
      end.

(** ** The life of the module *)

(** The states the module goes through: the initialization block ran to its
    end; later a listener subscribes, or a change of a watched path is
    reported while the file system is [fs]. *)
Inductive reachable : State -> Prop :=
  | reach_initialize std fs environ argv s :
      initialize fs environ argv (loaded std) = (Return tt, s) ->
      reachable s
  | reach_on s ev l :
      reachable s ->
      reachable (snd (on ev l s))
  | reach_change s fs p :
      reachable s ->
      p ∈ watches s ->
      reachable (snd (crl_changed fs p s)).

End Source.

(** The configuration file that a run of the initialization block takes
    its values from: none when [argv.cfg] is falsy; the parsed contents of
    the file named by [argv.cfg] when that is a non-empty string and the
    file can be read and parsed. *)
Definition config_source `{Platform} (fs : FS) (argv : gmap string value)
    (file : option value) : Prop :=
  match file with
  | None => truthy (default VUndefined (argv !! "cfg")) = false
  | Some f =>
      exists p, argv !! "cfg" = Some (VStr p) /\ p <> ""
                /\ fs !! p ≫= parse_config = Some f
  end.

(** ** A concrete platform and concrete inputs *)

(** Absolute paths resolve to themselves; other paths are appended to the
    directory.  (Enough for the examples, which use absolute paths.) *)
Definition resolve_simple (dir p : string) : string :=
  match p with
  | String "/" _ => p
  | _ => dir +:+ "/" +:+ p
  end.

(** Four decimal fields separated by dots, each at most 255. *)
Definition is_digit (a : ascii) : bool :=
  (48 <=? nat_of_ascii a)%nat && (nat_of_ascii a <=? 57)%nat.

Fixpoint decimal (acc : option N) (s : string) : option N :=
  match s with
  | EmptyString => acc
  | String a s' =>
      if is_digit a then
        decimal (Some (10 * default 0%N acc + (N_of_ascii a - 48))%N) s'
      else None
  end.

Definition is_ipv4 (s : string) : bool :=
  match split_on "." s with
  | [a; b; c; d] =>
      forallb (fun f => match decimal None f with
                        | Some n => (n <=? 255)%N
                        | None => false
                        end) [a; b; c; d]
  | _ => false
  end.

Definition sample_platform : Platform :=
  {| __dirname := "/srv/lib";
     path_resolve := resolve_simple;
     parse_config := fun _ => None;
     is_ip := is_ipv4 |}.

(** The default configuration, initialized on an empty file system. *)
Definition default_state : State :=
  snd (initialize (H := sample_platform) ∅ ∅ ∅ (loaded ∅)).

(** Mutual TLS with a revocation list and an application name, all given on
    the command line; the key file is empty. *)
Definition tls_argv : gmap string value :=
  <["https-enable" := VBool true]>
  (<["https-key" := VStr "/etc/gw/key.pem"]>
  (<["https-cert" := VStr "/etc/gw/crt.pem"]>
  (<["https-ca" := VStr "/etc/gw/ca.pem"]>
  (<["https-crl" := VStr "/etc/gw/crl.pem"]>
  (<["api-authenticationAppName" := VStr "gateway"]> ∅))))).

Definition tls_fs : FS :=
  <["/etc/gw/key.pem" := []]>
  (<["/etc/gw/crt.pem" := [Byte.x2d; Byte.x2d]]>
  (<["/etc/gw/ca.pem" := [Byte.x2d]]>
  (<["/etc/gw/crl.pem" := [Byte.x01]]> ∅))).

Definition tls_state : State :=
  snd (initialize (H := sample_platform) tls_fs ∅ tls_argv (loaded ∅)).

(** The same module with one subscriber of the change event. *)
Definition subscribed_state : State :=
  snd (on "change" 7%nat tls_state).

(** The revocation list has been removed from the file system. *)
Definition crl_removed_fs : FS := delete "/etc/gw/crl.pem" tls_fs.

(** A revocation list is configured while TLS stays disabled. *)
Definition crl_only_argv : gmap string value :=
  <["https-crl" := VStr "/etc/gw/crl.pem"]> ∅.

Definition crl_only_state : State :=
  snd (initialize (H := sample_platform) tls_fs ∅ crl_only_argv (loaded ∅)).

(** The four sources of the listening port, all present. *)
Definition port_entry : SchemaEntry :=
  entry ["port"] "The http port to listen on"
        FPort (VNum 80) (Some "BLPAPI_HTTP_PORT") "port".

Definition port_argv : gmap string value := <["port" := VNum 8082]> ∅.

Definition port_environ : gmap string value := <["BLPAPI_HTTP_PORT" := VNum 8081]> ∅.

Definition port_file : value := VObj (<["port" := VNum 8083]> ∅).

(** The module at the point of validation, with the listening port set to
    0 on the command line. *)
Definition port_zero_state : State :=
  set_convictConf (resolve schema None ∅ (<["port" := VNum 0]> ∅)) (loaded ∅).

(** The properties the initialization block gives to [otherConf]. *)
Definition bundle_names : list string :=
  [ "loggerOptions"; "bodyParserOptions"; "throttleOptions"; "serverOptions";
    "sessionOptions" ].

(** The revocation list has been replaced by a longer one. *)
Definition crl_replaced_fs : FS := <["/etc/gw/crl.pem" := [Byte.x02; Byte.x03]]> tls_fs.

(** A command line that sets the listening port to 0. *)
Definition port_zero_argv : gmap string value := <["port" := VNum 0]> ∅.

(** The certificate is missing from the file system. *)
Definition crt_removed_fs : FS := delete "/etc/gw/crt.pem" tls_fs.

(** * Properties *)

Arguments walk : simpl never.
Arguments set_path : simpl never.

(** ** Validated stores *)

Section Validated.
Context `{Platform}.

Lemma first_violation_None sch t :
  first_violation sch t = None <-> Forall (fun e => entry_ok t e = true) sch.
Proof.
  induction sch as [|e sch IH]; simpl.
  - split; auto.
  - destruct (entry_ok t e) eqn:He.
    + rewrite IH. split.
      * intros Hs. constructor; assumption.
      * intros Hs. inversion Hs; assumption.
    + split; [discriminate|].
      intros Hs. inversion Hs; congruence.
Qed.

Lemma valid_entry t e :
  valid t -> e ∈ schema ->
  exists v, walk (e_path e) t = Some v /\ check_format (e_format e) v = true.
Proof.
  intros Hv He. apply first_violation_None in Hv.
  rewrite Forall_forall in Hv. specialize (Hv e He).
  unfold entry_ok in Hv. destruct (walk (e_path e) t) as [v|]; [|discriminate].
  exists v. split; [reflexivity|assumption].
Qed.

(** The setting called [name] is the [i]-th entry of the schema. *)
Lemma valid_setting t (i : nat) e name :
  valid t -> schema !! i = Some e -> split_on "." name = e_path e ->
  exists v, store_get t name = Some v /\ check_format (e_format e) v = true.
Proof.
  intros Hv Hi Hn. unfold store_get. rewrite Hn.
  apply valid_entry; [assumption|]. eapply list_elem_of_lookup_2; eassumption.
Qed.

Lemma check_string v : check_format FString v = true -> exists s, v = VStr s.
Proof. destruct v; simpl; try discriminate. eauto. Qed.

Lemma check_boolean v : check_format FBoolean v = true -> exists b, v = VBool b.
Proof. destruct v; simpl; try discriminate. eauto. Qed.

Lemma check_port v :
  check_format FPort v = true <-> exists n, v = VNum n /\ 1 <= n <= 65535.
Proof.
  split.
  - destruct v; simpl; try discriminate. intros Hn.
    apply andb_true_iff in Hn as [H1 H2]. exists n. split; [reflexivity|lia].
  - intros (n & -> & Hn). simpl. apply andb_true_iff. split; lia.
Qed.

End Validated.

Ltac setting Hv i nm v Hget Hfmt :=
  destruct (valid_setting _ i _ nm Hv eq_refl eq_refl) as (v & Hget & Hfmt);
  simpl e_format in Hfmt.

Ltac string_setting Hv i nm s Hget :=
  let v := fresh "v" in
  let Hfmt := fresh "Hfmt" in
  setting Hv i nm v Hget Hfmt;
  apply check_string in Hfmt as [s ->].

(** ** Running the statements *)

Section Running.
Context `{Platform}.

Lemma convict_get_eq name v s :
  store_get (convictConf s) name = Some v -> convict_get name s = (Return v, s).
Proof. intros Hg. unfold convict_get. rewrite Hg. reflexivity. Qed.

Lemma strict_ne_str_eq s : strict_ne_str s (VStr s) = false.
Proof. unfold strict_ne_str. rewrite String.eqb_refl. reflexivity. Qed.

Lemma strict_ne_str_ne s s' : s' <> s -> strict_ne_str s (VStr s') = true.
Proof.
  intros Hne. unfold strict_ne_str.
  destruct (String.eqb_spec s s'); [congruence|reflexivity].
Qed.

Lemma read_setting_file_eq fs name p s :
  store_get (convictConf s) name = Some (VStr p) ->
  read_setting_file fs name s =
    match fs !! path_resolve __dirname p with
    | Some b => (Return b, log [EReadFileSync (path_resolve __dirname p)] s)
    | None =>
        (Throw (ReadError (path_resolve __dirname p)),
         log [EReadFileSync (path_resolve __dirname p)] s)
    end.
Proof.
  intros Hg. unfold read_setting_file, bind.
  rewrite (convict_get_eq _ _ _ Hg). reflexivity.
Qed.

End Running.

Ltac norm :=
  cbn [convictConf otherConf stdSerializers listeners watches effects
       set_otherConf set_convictConf set_stdSerializers set_listeners
       add_watch log fst snd negb mbind option_bind httpsServerOptions];
  cbv beta iota.

(** ** The response serializer *)

(** C7.  The response serializer never throws; it returns its input
    unchanged when the input is absent ([undefined] or [null], or any other
    falsy value) and when the input has no status code (a primitive, or an
    object without the property, or with a falsy one); given an object with
    a status code it returns an object with exactly the two properties
    [statusCode] and [header], holding the status code and the headers of
    the input. *)
Theorem res_serializer_spec (res : value) :
  is_Some (res_serializer res)
  /\ (truthy res = false -> res_serializer res = Some res)
  /\ (forall sc, get_prop res "statusCode" = Some sc -> truthy sc = false ->
      res_serializer res = Some res)
  /\ (forall o, res = VObj o -> o !! "statusCode" = None ->
      res_serializer res = Some res)
  /\ (forall o sc, res = VObj o -> o !! "statusCode" = Some sc -> truthy sc = true ->
      exists o', res_serializer res = Some (VObj o')
        /\ dom o' = {[ "statusCode"; "header" ]}
        /\ o' !! "statusCode" = Some sc
        /\ o' !! "header" = Some (default VUndefined (o !! "_headers"))).
Proof.
  repeat split.
  - unfold res_serializer.
    destruct res; simpl; eauto;
      repeat match goal with |- context [if ?c then _ else _] => destruct c end;
      simpl; eauto.
  - intros Hf. unfold res_serializer. rewrite Hf. reflexivity.
  - intros sc Hsc Hf. unfold res_serializer.
    destruct (negb (truthy res)); [reflexivity|].
    rewrite Hsc. simpl. rewrite Hf. reflexivity.
  - intros o -> Ho. unfold res_serializer. simpl. rewrite Ho. reflexivity.
  - intros o sc -> Ho Hsc. unfold res_serializer. simpl. rewrite Ho. simpl.
    rewrite Hsc. simpl. eexists. split; [reflexivity|].
    split; [|split].
    + rewrite !dom_insert_L, dom_empty_L. set_solver.
    + apply lookup_insert_eq.
    + rewrite lookup_insert_ne by discriminate. apply lookup_insert_eq.
Qed.

Lemma res_serializer_spec_witness :
  (VObj {[ "statusCode" := VNum 200; "_headers" := VStr "h"; "body" := VStr "b" ]}
     = VObj {[ "statusCode" := VNum 200; "_headers" := VStr "h"; "body" := VStr "b" ]}
   /\ truthy (VNum 200) = true)
  /\ exists o', res_serializer
        (VObj {[ "statusCode" := VNum 200; "_headers" := VStr "h"; "body" := VStr "b" ]})
        = Some (VObj o')
      /\ dom o' = {[ "statusCode"; "header" ]}.
Proof.
  split; [split; reflexivity|].
  destruct (res_serializer_spec
    (VObj {[ "statusCode" := VNum 200; "_headers" := VStr "h"; "body" := VStr "b" ]}))
    as (_ & _ & _ & _ & Hw).
  destruct (Hw _ (VNum 200) eq_refl eq_refl eq_refl) as (o' & Ho & Hd & _).
  exists o'. split; assumption.
Defined.

(** ** The session bundle *)

(** C1.  On a validated store the application name and the authentication
    mode are strings, and the construction of the session bundle splits in
    three: with a non-empty application name and the mode
    ['APPLICATION_ONLY'] the bundle carries the authentication string
    built from the mode and the name and [authorizeOnStartup] is true; with
    a non-empty application name and any other mode the construction throws
    an error whose message names the mode; with the empty application name
    the bundle has no [authenticationOptions] and [authorizeOnStartup] is
    false, whatever the mode. *)
Theorem sessionOptions_cases `{Platform} (s : State) :
  valid (convictConf s) ->
  exists host port appName mode,
    store_get (convictConf s) "api.host" = Some host
    /\ store_get (convictConf s) "api.port" = Some port
    /\ store_get (convictConf s) "api.authenticationAppName" = Some (VStr appName)
    /\ store_get (convictConf s) "api.authenticationMode" = Some (VStr mode)
    /\ (appName <> "" -> mode = "APPLICATION_ONLY" ->
        build_sessionOptions s =
          (Return tt,
           set_otherConf
             (<["sessionOptions" :=
                  BSession
                    {| blpapiSessionOptions :=
                         {| serverHost := host; serverPort := port;
                            authenticationOptions :=
                              Some ("AuthenticationMode=" +:+ mode +:+
                                    ";ApplicationAuthenticationType=APPNAME_AND_KEY;ApplicationName="
                                    +:+ appName) |};
                       authorizeOnStartup := true |}]> (otherConf s)) s))
    /\ (appName <> "" -> mode <> "APPLICATION_ONLY" ->
        build_sessionOptions s =
          (Throw (Error ("Bad value for api.authenticationMode: " +:+ mode)), s))
    /\ (appName = "" ->
        build_sessionOptions s =
          (Return tt,
           set_otherConf
             (<["sessionOptions" :=
                  BSession
                    {| blpapiSessionOptions :=
                         {| serverHost := host; serverPort := port;
                            authenticationOptions := None |};
                       authorizeOnStartup := false |}]> (otherConf s)) s)).
Proof.
  intros Hv.
  setting Hv 0%nat "api.host" host Hhost Fhost.
  setting Hv 1%nat "api.port" port Hport Fport.
  string_setting Hv 2%nat "api.authenticationMode" mode Hmode.
  string_setting Hv 3%nat "api.authenticationAppName" appName Happ.
  exists host, port, appName, mode.
  repeat (split; [assumption|]).
  repeat split.
  - intros Hne ->. unfold build_sessionOptions, bind.
    rewrite (convict_get_eq _ _ _ Hhost), (convict_get_eq _ _ _ Hport),
      (convict_get_eq _ _ _ Happ), (strict_ne_str_ne _ _ Hne),
      (convict_get_eq _ _ _ Hmode), strict_ne_str_eq.
    reflexivity.
  - intros Hne Hm. unfold build_sessionOptions, bind.
    rewrite (convict_get_eq _ _ _ Hhost), (convict_get_eq _ _ _ Hport),
      (convict_get_eq _ _ _ Happ), (strict_ne_str_ne _ _ Hne),
      (convict_get_eq _ _ _ Hmode), (strict_ne_str_ne _ _ Hm).
    reflexivity.
  - intros ->. unfold build_sessionOptions, bind.
    rewrite (convict_get_eq _ _ _ Hhost), (convict_get_eq _ _ _ Hport),
      (convict_get_eq _ _ _ Happ), strict_ne_str_eq.
    reflexivity.
Qed.

Lemma sessionOptions_cases_witness :
  valid (H := sample_platform) (convictConf tls_state)
  /\ exists s', build_sessionOptions tls_state = (Return tt, s').
Proof.
  assert (Hv : valid (H := sample_platform) (convictConf tls_state))
    by (vm_compute; reflexivity).
  split; [exact Hv|].
  destruct (sessionOptions_cases (H := sample_platform) tls_state Hv)
    as (host & port & appName & mode & _ & _ & Happ & Hmode & Hok & _ & _).
  vm_compute in Happ. vm_compute in Hmode.
  injection Happ as <-. injection Hmode as <-.
  eexists. apply Hok; [discriminate|reflexivity].
Defined.

(** ** The server bundle *)

Section Server.
Context `{Platform}.

(** The server bundle before any TLS material is attached (lines 289-293). *)
Lemma build_serverOptions_plain fs s nm ver en :
  store_get (convictConf s) "service.name" = Some nm ->
  store_get (convictConf s) "service.version" = Some ver ->
  store_get (convictConf s) "https.enable" = Some en ->
  truthy en = false ->
  build_serverOptions fs s =
    (Return tt,
     set_otherConf
       (<["serverOptions" :=
            BServer {| name := nm; version := ver;
                       acceptable := ["application/json"];
                       httpsServerOptions := None |}]> (otherConf s)) s).
Proof.
  intros Hnm Hver Hen Hf. unfold build_serverOptions, bind.
  rewrite (convict_get_eq _ _ _ Hnm), (convict_get_eq _ _ _ Hver).
  unfold assign, modify. rewrite (convict_get_eq "https.enable" en) by exact Hen.
  rewrite Hf. reflexivity.
Qed.

Lemma serverOptions_of_insert b (s : State) o :
  serverOptions_of (set_otherConf (<["serverOptions" := BServer b]> o) s) = Some b.
Proof. unfold serverOptions_of. cbn [otherConf set_otherConf]. rewrite lookup_insert_eq. reflexivity. Qed.

Lemma serverOptions_of_log es s : serverOptions_of (log es s) = serverOptions_of s.
Proof. reflexivity. Qed.

(** The server bundle with TLS enabled (lines 294-317): what a run that
    returns has built, and why a run that throws has thrown. *)
Lemma build_serverOptions_tls fs s nm ver en kp cp ap rp :
  store_get (convictConf s) "service.name" = Some nm ->
  store_get (convictConf s) "service.version" = Some ver ->
  store_get (convictConf s) "https.enable" = Some en ->
  store_get (convictConf s) "https.key" = Some (VStr kp) ->
  store_get (convictConf s) "https.cert" = Some (VStr cp) ->
  store_get (convictConf s) "https.ca" = Some (VStr ap) ->
  store_get (convictConf s) "https.crl" = Some (VStr rp) ->
  truthy en = true ->
  match build_serverOptions fs s with
  | (Return _, s') =>
      exists k c a,
        fs !! path_resolve __dirname kp = Some k
        /\ fs !! path_resolve __dirname cp = Some c
        /\ fs !! path_resolve __dirname ap = Some a
        /\ convictConf s' = convictConf s
        /\ stdSerializers s' = stdSerializers s
        /\ listeners s' = listeners s
        /\ ((rp = ""
             /\ otherConf s' =
                  <["serverOptions" :=
                      BServer {| name := nm; version := ver;
                                 acceptable := ["application/json"];
                                 httpsServerOptions :=
                                   Some {| key := k; cert := c; ca := a;
                                           requestCert := true;
                                           rejectUnauthorized := true;
                                           crl := None |} |}]> (otherConf s)
             /\ watches s' = watches s
             /\ effects s' =
                  effects s ++ [EReadFileSync (path_resolve __dirname kp);
                                EReadFileSync (path_resolve __dirname cp);
                                EReadFileSync (path_resolve __dirname ap)])
            \/ (rp <> ""
                /\ exists r,
                     fs !! path_resolve __dirname rp = Some r
                     /\ otherConf s' =
                          <["serverOptions" :=
                              BServer {| name := nm; version := ver;
                                         acceptable := ["application/json"];
                                         httpsServerOptions :=
                                           Some {| key := k; cert := c; ca := a;
                                                   requestCert := true;
                                                   rejectUnauthorized := true;
                                                   crl := Some r |} |}]> (otherConf s)
                     /\ watches s' = watches s ++ [path_resolve __dirname rp]
                     /\ effects s' =
                          effects s ++ [EReadFileSync (path_resolve __dirname kp);
                                        EReadFileSync (path_resolve __dirname cp);
                                        EReadFileSync (path_resolve __dirname ap);
                                        EReadFileSync (path_resolve __dirname rp);
                                        EWatch (path_resolve __dirname rp)]))
  | (Throw e, s') =>
      exists p,
        e = ReadError p /\ fs !! p = None
        /\ (p = path_resolve __dirname kp \/ p = path_resolve __dirname cp
            \/ p = path_resolve __dirname ap
            \/ (p = path_resolve __dirname rp /\ rp <> ""))
        /\ watches s' = watches s
  end.
Proof.
  intros Hnm Hver Hen Hk Hc Ha Hr Ht. unfold build_serverOptions, bind.
  rewrite (convict_get_eq _ _ _ Hnm), (convict_get_eq _ _ _ Hver).
  unfold assign, modify. rewrite (convict_get_eq "https.enable" en) by exact Hen.
  rewrite Ht.
  rewrite (read_setting_file_eq fs "https.key" kp) by exact Hk.
  destruct (fs !! path_resolve __dirname kp) as [k|] eqn:Ek;
    [|exists (path_resolve __dirname kp); repeat split; auto].
  rewrite (read_setting_file_eq fs "https.cert" cp) by exact Hc.
  destruct (fs !! path_resolve __dirname cp) as [c|] eqn:Ec;
    [|exists (path_resolve __dirname cp); repeat split; auto].
  rewrite (read_setting_file_eq fs "https.ca" ap) by exact Ha.
  destruct (fs !! path_resolve __dirname ap) as [a|] eqn:Ea;
    [|exists (path_resolve __dirname ap); repeat split; auto].
  unfold assign_https. rewrite !serverOptions_of_log, serverOptions_of_insert.
  rewrite (convict_get_eq "https.crl" (VStr rp)) by exact Hr.
  cbn [truthy]. destruct (String.eqb_spec rp "") as [->|Hne]; cbn [negb].
  - exists k, c, a. repeat (split; [reflexivity|]). left.
    split; [reflexivity|]. unfold ret. norm.
    split; [apply insert_insert_eq|]. split; [reflexivity|].
    rewrite <- !app_assoc. reflexivity.
  - rewrite (convict_get_eq "https.crl" (VStr rp)) by exact Hr.
    unfold resolve_from_dirname, ret, readFileSync.
    destruct (fs !! path_resolve __dirname rp) as [r|] eqn:Er.
    + unfold assign_crl. rewrite !serverOptions_of_log, serverOptions_of_insert.
      unfold watch, modify.
      exists k, c, a. repeat (split; [reflexivity|]). right.
      split; [assumption|]. exists r. split; [reflexivity|].
      split; [norm; rewrite !insert_insert_eq; reflexivity|].
      split; [reflexivity|].
      norm. rewrite <- !app_assoc. reflexivity.
    + exists (path_resolve __dirname rp). repeat split; auto 6.
Qed.

End Server.

(** ** The bundles built from settings alone *)

Ltac settings_of Hrun :=
  repeat match type of Hrun with
    | context [match store_get ?c ?n with _ => _ end] =>
        let v := fresh "v" in
        let E := fresh "E" in
        destruct (store_get c n) as [v|] eqn:E; [|discriminate Hrun]
    end.

Section Builders.
Context `{Platform}.

Lemma build_loggerOptions_returns s s' :
  build_loggerOptions s = (Return tt, s') ->
  exists o, s' = set_otherConf (<["loggerOptions" := BLogger o]> (otherConf s)) s.
Proof.
  intros Hrun. unfold build_loggerOptions, bind, convict_get in Hrun.
  settings_of Hrun. destruct (truthy v1).
  - settings_of Hrun. unfold ret, read, assign, modify in Hrun.
    settings_of Hrun. injection Hrun as <-. eexists. reflexivity.
  - unfold ret, read, assign, modify in Hrun.
    settings_of Hrun. injection Hrun as <-. eexists. reflexivity.
Qed.

Lemma build_bodyParserOptions_returns s s' :
  build_bodyParserOptions s = (Return tt, s') ->
  exists o, s' = set_otherConf (<["bodyParserOptions" := BBodyParser o]> (otherConf s)) s.
Proof.
  intros Hrun. unfold build_bodyParserOptions, bind, convict_get, assign, modify in Hrun.
  settings_of Hrun. injection Hrun as <-. eexists. reflexivity.
Qed.

Lemma build_throttleOptions_returns s s' :
  build_throttleOptions s = (Return tt, s') ->
  exists b r,
    s' = set_otherConf
           (<["throttleOptions" :=
                BThrottle {| burst := b; rate := r; ip := true;
                             overrides :=
                               <["127.0.0.1" :=
                                   {| override_rate := 0; override_burst := 0 |}]> ∅ |}]>
              (otherConf s)) s.
Proof.
  intros Hrun. unfold build_throttleOptions, bind, convict_get, assign, modify in Hrun.
  settings_of Hrun. injection Hrun as <-. eexists _, _. reflexivity.
Qed.

Lemma build_sessionOptions_returns s s' :
  build_sessionOptions s = (Return tt, s') ->
  exists o, s' = set_otherConf (<["sessionOptions" := BSession o]> (otherConf s)) s.
Proof.
  intros Hrun. unfold build_sessionOptions, bind, convict_get in Hrun.
  settings_of Hrun. destruct (strict_ne_str "" v1).
  - settings_of Hrun. destruct (strict_ne_str "APPLICATION_ONLY" v2).
    + discriminate Hrun.
    + unfold ret, assign, modify in Hrun. injection Hrun as <-. eexists. reflexivity.
  - unfold ret, assign, modify in Hrun. injection Hrun as <-. eexists. reflexivity.
Qed.

(** A run of the initialization block that reaches its end went through a
    validated store and the five builders. *)
Lemma initialize_returns fs environ argv std s :
  initialize fs environ argv (loaded std) = (Return tt, s) ->
  exists s1 s2,
    valid (convictConf s1)
    /\ listeners s1 = ∅ /\ watches s1 = [] /\ effects s1 = []
    /\ (exists b r,
          otherConf s1 !! "throttleOptions" =
            Some (BThrottle {| burst := b; rate := r; ip := true;
                               overrides :=
                                 <["127.0.0.1" :=
                                     {| override_rate := 0; override_burst := 0 |}]> ∅ |}))
    /\ build_serverOptions fs s1 = (Return tt, s2)
    /\ build_sessionOptions s2 = (Return tt, s).
Proof.
  intros Hrun. unfold initialize in Hrun.
  unfold bind at 1 2 3 in Hrun. unfold modify at 1 2 in Hrun.
  set (sA := set_convictConf _ _) in Hrun.
  destruct ((if truthy (default VUndefined (argv !! "cfg"))
             then loadFile fs environ argv (default VUndefined (argv !! "cfg"))
             else ret ()) sA) as [u sB] eqn:EB.
  destruct u as [[]|e]; [|discriminate Hrun].
  assert (HB : listeners sB = ∅ /\ watches sB = [] /\ effects sB = []).
  { destruct (truthy _) in EB.
    - unfold loadFile in EB.
      destruct (default VUndefined (argv !! "cfg")) as [| | | |cfg|];
        try discriminate EB.
      destruct (fs !! cfg ≫= parse_config); [|discriminate EB].
      injection EB as <-. repeat split.
    - injection EB as <-. repeat split. }
  clear EB. destruct HB as (HL & HW & HE).
  unfold bind at 1 in Hrun. unfold validate at 1 in Hrun.
  destruct (first_violation schema (convictConf sB)) as [[k f]|] eqn:Hvalid;
    [discriminate Hrun|].
  unfold bind at 1 in Hrun. unfold install_serializers, modify in Hrun.
  unfold bind at 1 in Hrun.
  destruct (build_loggerOptions _) as [[[]|e1] s3] eqn:E3; [|discriminate Hrun].
  apply build_loggerOptions_returns in E3 as [o3 ->].
  unfold bind at 1 in Hrun.
  destruct (build_bodyParserOptions _) as [[[]|e1] s4] eqn:E4; [|discriminate Hrun].
  apply build_bodyParserOptions_returns in E4 as [o4 ->].
  unfold bind at 1 in Hrun.
  destruct (build_throttleOptions _) as [[[]|e1] s5] eqn:E5; [|discriminate Hrun].
  apply build_throttleOptions_returns in E5 as (b & r & ->).
  unfold bind at 1 in Hrun.
  destruct (build_serverOptions fs _) as [[[]|e1] s6] eqn:E6; [|discriminate Hrun].
  eexists _, s6. split; [|split; [|split; [|split; [|split; [|split]]]]].
  7: exact Hrun. 6: exact E6.
  - exact Hvalid.
  - exact HL.
  - exact HW.
  - exact HE.
  - exists b, r. cbn [otherConf set_otherConf]. apply lookup_insert_eq.
Qed.

End Builders.

(** ** The watcher *)

Section Watcher.
Context `{Platform}.

(** What the callback of the watch does, case by case. *)
Lemma crl_changed_cases fs p s :
  crl_changed fs p s =
    match fs !! p with
    | None => (Throw (ReadError p), log [EReadFileSync p] s)
    | Some buf =>
        match serverOptions_of s with
        | Some so =>
            match httpsServerOptions so with
            | Some o =>
                (Return tt,
                 log (map (fun l => EDeliver l "change" "https.crl")
                          (default [] (listeners s !! "change")))
                   (set_otherConf
                      (<["serverOptions" := BServer (with_https (with_crl buf o) so)]>
                         (otherConf s))
                      (log [EReadFileSync p] s)))
            | None =>
                (Throw (TypeError "Cannot set property 'crl'"), log [EReadFileSync p] s)
            end
        | None =>
            (Throw (TypeError "Cannot set property 'crl'"), log [EReadFileSync p] s)
        end
    end.
Proof.
  unfold crl_changed, bind, readFileSync.
  destruct (fs !! p) as [buf|]; [|reflexivity].
  unfold assign_crl. rewrite serverOptions_of_log.
  destruct (serverOptions_of s) as [so|]; [|reflexivity].
  cbn [mbind option_bind]. destruct (httpsServerOptions so) as [o|]; reflexivity.
Qed.

Lemma serverOptions_of_other k b (s s0 : State) :
  k <> "serverOptions" ->
  serverOptions_of (set_otherConf (<[k := b]> (otherConf s)) s0) = serverOptions_of s.
Proof.
  intros Hk. unfold serverOptions_of. cbn [otherConf set_otherConf].
  rewrite lookup_insert_ne by exact Hk. reflexivity.
Qed.

(** What holds of every state of the module once it is initialized. *)
Lemma reachable_inv s :
  reachable s ->
  valid (convictConf s)
  /\ (exists b r,
        otherConf s !! "throttleOptions" =
          Some (BThrottle {| burst := b; rate := r; ip := true;
                             overrides :=
                               <["127.0.0.1" :=
                                   {| override_rate := 0; override_burst := 0 |}]> ∅ |}))
  /\ exists so,
       serverOptions_of s = Some so
       /\ (watches s <> [] -> is_Some (httpsServerOptions so))
       /\ (forall en, store_get (convictConf s) "https.enable" = Some en ->
                      truthy en = false ->
                      httpsServerOptions so = None /\ watches s = [] /\ effects s = []).
Proof.
  induction 1 as [std fs environ argv s Hrun|s ev l Hs IH|s fs p Hs IH Hp].
  - destruct (initialize_returns _ _ _ _ _ Hrun)
      as (s1 & s2 & Hv & HL & HW & HE & (b & r & Hth) & Hsrv & Hses).
    apply build_sessionOptions_returns in Hses as [o ->].
    cbn [convictConf otherConf watches effects set_otherConf].
    rewrite serverOptions_of_other by discriminate.
    rewrite lookup_insert_ne by discriminate.
    setting Hv 17%nat "service.name" nm Hnm Fnm.
    setting Hv 18%nat "service.version" ver Hver Fver.
    setting Hv 6%nat "https.enable" en Hen Fen.
    apply check_boolean in Fen as [en' ->].
    string_setting Hv 9%nat "https.key" kp Hkp.
    string_setting Hv 8%nat "https.cert" cp Hcp.
    string_setting Hv 7%nat "https.ca" tp Hap.
    string_setting Hv 10%nat "https.crl" rp Hrp.
    destruct en'.
    + pose proof (build_serverOptions_tls fs s1 _ _ _ _ _ _ _
                    Hnm Hver Hen Hkp Hcp Hap Hrp eq_refl) as Ht.
      rewrite Hsrv in Ht.
      destruct Ht as (k & c & a & _ & _ & _ & Hconf & _ & _ & Hcases).
      rewrite Hconf. split; [exact Hv|].
      assert (Hfalse : forall en, store_get (convictConf s1) "https.enable" = Some en ->
                         truthy en = false -> False).
      { intros en Hen' Hf. rewrite Hen in Hen'. injection Hen' as <-. discriminate Hf. }
      destruct Hcases as [(-> & Hoc & Hw & He)|(Hne & r' & _ & Hoc & Hw & He)].
      * split.
        { exists b, r. rewrite Hoc, lookup_insert_ne by discriminate. exact Hth. }
        eexists. split; [unfold serverOptions_of; rewrite Hoc, lookup_insert_eq; reflexivity|].
        split; [intros _; eexists; reflexivity|].
        intros en Hen' Hf. destruct (Hfalse en Hen' Hf).
      * split.
        { exists b, r. rewrite Hoc, lookup_insert_ne by discriminate. exact Hth. }
        eexists. split; [unfold serverOptions_of; rewrite Hoc, lookup_insert_eq; reflexivity|].
        split; [intros _; eexists; reflexivity|].
        intros en Hen' Hf. destruct (Hfalse en Hen' Hf).
    + rewrite (build_serverOptions_plain fs s1 _ _ _ Hnm Hver Hen eq_refl) in Hsrv.
      injection Hsrv as <-.
      cbn [convictConf otherConf watches effects set_otherConf].
      split; [exact Hv|]. split.
      { exists b, r. rewrite lookup_insert_ne by discriminate. exact Hth. }
      eexists. split; [apply serverOptions_of_insert|].
      split; [intros Hw; congruence|].
      intros _ _ _. repeat split; assumption.
  - destruct IH as (Hv & Hth & so & Hso & Hw & Hoff).
    unfold on, modify. cbn [snd]. split; [exact Hv|]. split; [exact Hth|].
    exists so. split; [exact Hso|]. split; [exact Hw|]. exact Hoff.
  - destruct IH as (Hv & Hth & so & Hso & Hw & Hoff).
    assert (Hne : watches s <> []) by (intros Hn; rewrite Hn in Hp; inversion Hp).
    destruct (Hw Hne) as [o Ho].
    rewrite crl_changed_cases, Hso, Ho.
    destruct (fs !! p) as [buf|]; cbn [snd].
    + cbn [convictConf otherConf watches effects set_otherConf log].
      split; [exact Hv|]. split.
      { destruct Hth as (b & r & Hth). exists b, r.
        rewrite lookup_insert_ne by discriminate. exact Hth. }
      eexists. split; [apply serverOptions_of_insert|].
      split; [intros _; eexists; reflexivity|].
      intros en He Hf. destruct (Hoff en He Hf) as (Hnone & _). congruence.
    + cbn [convictConf otherConf watches effects set_otherConf log].
      split; [exact Hv|]. split; [exact Hth|].
      exists so. split; [exact Hso|]. split; [exact Hw|].
      intros en He Hf. destruct (Hoff en He Hf) as (Hnone & _). congruence.
Qed.

End Watcher.

(** ** The concrete runs *)

Lemma tls_state_run :
  initialize (H := sample_platform) tls_fs ∅ tls_argv (loaded ∅) = (Return tt, tls_state).
Proof. vm_compute. reflexivity. Qed.

Lemma tls_state_reachable : reachable (H := sample_platform) tls_state.
Proof. eapply reach_initialize. exact tls_state_run. Qed.

Lemma subscribed_state_reachable : reachable (H := sample_platform) subscribed_state.
Proof. apply reach_on. exact tls_state_reachable. Qed.

Lemma crl_only_state_run :
  initialize (H := sample_platform) tls_fs ∅ crl_only_argv (loaded ∅)
    = (Return tt, crl_only_state).
Proof. vm_compute. reflexivity. Qed.

Lemma crl_only_state_reachable : reachable (H := sample_platform) crl_only_state.
Proof. eapply reach_initialize. exact crl_only_state_run. Qed.

(** ** The server bundle, all or nothing *)

(** C2, as amended.  On a validated store: with TLS disabled the server
    bundle is built and has no [httpsServerOptions]; with TLS enabled,
    every run that returns has built [httpsServerOptions] with the key, the
    certificate and the trust anchor all three present and equal to the
    contents of the three files (whatever their length), with
    [requestCert] and [rejectUnauthorized] true; if one of the three files
    cannot be read the construction throws the read error of a file that is
    missing; and if the three files can be read, and the revocation list
    too when one is configured, the construction returns. *)
Theorem serverOptions_tls_all_or_nothing `{Platform} (fs : FS) (s : State) :
  valid (convictConf s) ->
  exists (en : bool) kp cp tp rp,
    store_get (convictConf s) "https.enable" = Some (VBool en)
    /\ store_get (convictConf s) "https.key" = Some (VStr kp)
    /\ store_get (convictConf s) "https.cert" = Some (VStr cp)
    /\ store_get (convictConf s) "https.ca" = Some (VStr tp)
    /\ store_get (convictConf s) "https.crl" = Some (VStr rp)
    /\ (en = false ->
        exists s' so,
          build_serverOptions fs s = (Return tt, s')
          /\ serverOptions_of s' = Some so
          /\ httpsServerOptions so = None)
    /\ (en = true -> forall s',
        build_serverOptions fs s = (Return tt, s') ->
        exists so o,
          serverOptions_of s' = Some so
          /\ httpsServerOptions so = Some o
          /\ fs !! path_resolve __dirname kp = Some (key o)
          /\ fs !! path_resolve __dirname cp = Some (cert o)
          /\ fs !! path_resolve __dirname tp = Some (ca o)
          /\ requestCert o = true
          /\ rejectUnauthorized o = true)
    /\ (en = true ->
        fs !! path_resolve __dirname kp = None
        \/ fs !! path_resolve __dirname cp = None
        \/ fs !! path_resolve __dirname tp = None ->
        exists p s',
          build_serverOptions fs s = (Throw (ReadError p), s') /\ fs !! p = None)
    /\ (en = true ->
        is_Some (fs !! path_resolve __dirname kp) ->
        is_Some (fs !! path_resolve __dirname cp) ->
        is_Some (fs !! path_resolve __dirname tp) ->
        rp = "" \/ is_Some (fs !! path_resolve __dirname rp) ->
        exists s', build_serverOptions fs s = (Return tt, s')).
Proof.
  intros Hv.
  setting Hv 17%nat "service.name" nm Hnm Fnm.
  setting Hv 18%nat "service.version" ver Hver Fver.
  setting Hv 6%nat "https.enable" en Hen Fen.
  apply check_boolean in Fen as [en' ->].
  string_setting Hv 9%nat "https.key" kp Hkp.
  string_setting Hv 8%nat "https.cert" cp Hcp.
  string_setting Hv 7%nat "https.ca" tp Htp.
  string_setting Hv 10%nat "https.crl" rp Hrp.
  exists en', kp, cp, tp, rp. repeat (split; [assumption|]).
  destruct en'.
  - pose proof (build_serverOptions_tls fs s _ _ _ _ _ _ _
                  Hnm Hver Hen Hkp Hcp Htp Hrp eq_refl) as Ht.
    split; [discriminate|]. split; [|split].
    + intros _ s' Hrun. rewrite Hrun in Ht.
      destruct Ht as (k & c & a & Hk & Hc & Ha & _ & _ & _ & Hcases).
      destruct Hcases as [(_ & Hoc & _)|(_ & r & _ & Hoc & _)];
        (eexists _, _; split;
         [unfold serverOptions_of; rewrite Hoc, lookup_insert_eq; reflexivity|]);
        cbn [httpsServerOptions key cert ca requestCert rejectUnauthorized];
        repeat split; assumption.
    + intros _ Hmiss.
      destruct (build_serverOptions fs s) as [[[]|e] s'].
      * destruct Ht as (k & c & a & Hk & Hc & Ha & _).
        destruct Hmiss as [Hm|[Hm|Hm]]; congruence.
      * destruct Ht as (p & -> & Hp & _). exists p, s'. split; [reflexivity|exact Hp].
    + intros _ [k Hk] [c Hc] [a Ha] Hcrl.
      destruct (build_serverOptions fs s) as [[[]|e] s'].
      * exists s'. reflexivity.
      * destruct Ht as (p & _ & Hp & Hwhich & _). exfalso.
        destruct Hwhich as [->|[->|[->|[-> Hne]]]]; try congruence.
        destruct Hcrl as [->|[r Hr]]; congruence.
  - split.
    + intros _. eexists _, _.
      split; [apply (build_serverOptions_plain fs s _ _ _ Hnm Hver Hen eq_refl)|].
      split; [apply serverOptions_of_insert|reflexivity].
    + repeat split; discriminate.
Qed.

Lemma serverOptions_tls_all_or_nothing_witness :
  valid (H := sample_platform) (convictConf tls_state)
  /\ exists s' so o,
       build_serverOptions (H := sample_platform) tls_fs tls_state = (Return tt, s')
       /\ serverOptions_of s' = Some so
       /\ httpsServerOptions so = Some o
       /\ cert o = [Byte.x2d; Byte.x2d].
Proof.
  assert (Hv : valid (H := sample_platform) (convictConf tls_state))
    by (vm_compute; reflexivity).
  split; [exact Hv|].
  destruct (serverOptions_tls_all_or_nothing (H := sample_platform) tls_fs tls_state Hv)
    as (en & kp & cp & tp & rp & Hen & Hkp & Hcp & Htp & Hrp & _ & Hon & _ & Hret).
  vm_compute in Hen. injection Hen as <-.
  vm_compute in Hkp. injection Hkp as <-.
  vm_compute in Hcp. injection Hcp as <-.
  vm_compute in Htp. injection Htp as <-.
  vm_compute in Hrp. injection Hrp as <-.
  destruct Hret as [s' Hrun]; try reflexivity;
    try (right; vm_compute); try (vm_compute; eexists; reflexivity).
  destruct (Hon eq_refl s' Hrun) as (so & o & Hso & Ho & _ & Hc & _).
  exists s', so, o. repeat (split; [assumption|]).
  assert (Hc' : Some (cert o) = Some [Byte.x2d; Byte.x2d])
    by (rewrite <- Hc; vm_compute; reflexivity).
  injection Hc' as Hc'. exact Hc'.
Defined.

(** C2 as stated fails: the buffers need not be non-empty.  With an empty
    key file the construction returns, and the bundle carries an empty
    key. *)
Lemma serverOptions_empty_key_counterexample :
  ~ (forall (fs : FS) (s s' : State) (so : ServerOptions) (o : HttpsServerOptions),
       valid (H := sample_platform) (convictConf s) ->
       build_serverOptions (H := sample_platform) fs s = (Return tt, s') ->
       serverOptions_of s' = Some so ->
       httpsServerOptions so = Some o ->
       key o <> [] /\ cert o <> [] /\ ca o <> []).
Proof.
  intros Hall.
  edestruct (Hall tls_fs tls_state) as [Hk _].
  - vm_compute. reflexivity.
  - vm_compute. reflexivity.
  - vm_compute. reflexivity.
  - reflexivity.
  - apply Hk. reflexivity.
Qed.

(** ** The reload of the revocation list *)

(** C3, as amended.  In every state of the initialized module, when a
    change of a watched path is reported and the file can be read, the
    callback returns; the revocation buffer of the server bundle is then
    the contents of the file, the whole of it; and what the step does to
    the outside is one read of the file followed by exactly one delivery of
    ['change'] with the payload ['https.crl'] to each listener registered
    for that event, in order of registration. *)
Theorem crl_reload_step `{Platform} (fs : FS) (s : State) (p : string) (buf : Buffer) :
  reachable s ->
  p ∈ watches s ->
  fs !! p = Some buf ->
  exists s' so' o',
    crl_changed fs p s = (Return tt, s')
    /\ serverOptions_of s' = Some so'
    /\ httpsServerOptions so' = Some o'
    /\ crl o' = Some buf
    /\ effects s' =
         effects s ++
           EReadFileSync p ::
           map (fun l => EDeliver l "change" "https.crl")
               (default [] (listeners s !! "change")).
Proof.
  intros Hs Hp Hfile.
  destruct (reachable_inv s Hs) as (_ & _ & so & Hso & Hw & _).
  assert (Hne : watches s <> []) by (intros Hn; rewrite Hn in Hp; inversion Hp).
  destruct (Hw Hne) as [o Ho].
  rewrite crl_changed_cases, Hfile, Hso, Ho.
  eexists _, _, _. split; [reflexivity|].
  split; [apply serverOptions_of_insert|].
  split; [reflexivity|]. split; [reflexivity|].
  cbn [effects log set_otherConf]. rewrite <- app_assoc. reflexivity.
Qed.

Lemma crl_reload_step_witness :
  (reachable (H := sample_platform) subscribed_state
   /\ "/etc/gw/crl.pem" ∈ watches subscribed_state
   /\ tls_fs !! "/etc/gw/crl.pem" = Some [Byte.x01])
  /\ exists s' so' o',
       crl_changed tls_fs "/etc/gw/crl.pem" subscribed_state = (Return tt, s')
       /\ serverOptions_of s' = Some so'
       /\ httpsServerOptions so' = Some o'
       /\ crl o' = Some [Byte.x01]
       /\ effects s' =
            effects subscribed_state ++
              EReadFileSync "/etc/gw/crl.pem" ::
              map (fun l => EDeliver l "change" "https.crl")
                  (default [] (listeners subscribed_state !! "change")).
Proof.
  assert (Hin : "/etc/gw/crl.pem" ∈ watches subscribed_state)
    by (vm_compute; apply list_elem_of_here).
  assert (Hfile : tls_fs !! "/etc/gw/crl.pem" = Some [Byte.x01])
    by (vm_compute; reflexivity).
  split; [split; [exact subscribed_state_reachable|split; assumption]|].
  exact (crl_reload_step (H := sample_platform) tls_fs subscribed_state
           "/etc/gw/crl.pem" [Byte.x01] subscribed_state_reachable Hin Hfile).
Defined.

(** C3 as stated fails when the watched file cannot be read at the time of
    the event (it was removed or is being replaced): the callback throws
    the read error, the revocation buffer keeps its previous contents, and
    the subscriber receives no notification. *)
Lemma crl_reload_unreadable_counterexample :
  reachable (H := sample_platform) subscribed_state
  /\ "/etc/gw/crl.pem" ∈ watches subscribed_state
  /\ listeners subscribed_state !! "change" = Some [7%nat]
  /\ crl_changed crl_removed_fs "/etc/gw/crl.pem" subscribed_state
       = (Throw (ReadError "/etc/gw/crl.pem"),
          log [EReadFileSync "/etc/gw/crl.pem"] subscribed_state)
  /\ ((serverOptions_of
         (snd (crl_changed crl_removed_fs "/etc/gw/crl.pem" subscribed_state))
         ≫= httpsServerOptions) ≫= crl) = Some [Byte.x01]
  /\ EDeliver 7%nat "change" "https.crl"
       ∉ effects (snd (crl_changed crl_removed_fs "/etc/gw/crl.pem" subscribed_state)).
Proof.
  split; [exact subscribed_state_reachable|].
  split; [vm_compute; apply list_elem_of_here|].
  split; [vm_compute; reflexivity|].
  split; [rewrite crl_changed_cases; reflexivity|].
  split; [vm_compute; reflexivity|].
  rewrite crl_changed_cases.
  replace (crl_removed_fs !! "/etc/gw/crl.pem") with (@None Buffer)
    by (vm_compute; reflexivity).
  cbn [snd effects log].
  replace (effects subscribed_state) with
    [EReadFileSync "/etc/gw/key.pem"; EReadFileSync "/etc/gw/crt.pem";
     EReadFileSync "/etc/gw/ca.pem"; EReadFileSync "/etc/gw/crl.pem";
     EWatch "/etc/gw/crl.pem"] by (vm_compute; reflexivity).
  intros Hin. cbn [app] in Hin.
  apply list_elem_of_In in Hin. cbn [In] in Hin.
  intuition discriminate.
Qed.

(** C10.  Whatever its outcome, a run of the callback of the watch leaves
    the validated store, the table of serializers, the listeners and the
    watches as they were, and every property of [otherConf] other than
    ['serverOptions'] as it was; of the server bundle it keeps the name,
    the version and the accepted content types, and either leaves
    [httpsServerOptions] as it was or keeps its key, certificate, trust
    anchor, [requestCert] and [rejectUnauthorized]: only [crl] can
    differ. *)
Theorem crl_reload_frame `{Platform} (fs : FS) (p : string) (s : State) :
  convictConf (snd (crl_changed fs p s)) = convictConf s
  /\ stdSerializers (snd (crl_changed fs p s)) = stdSerializers s
  /\ listeners (snd (crl_changed fs p s)) = listeners s
  /\ watches (snd (crl_changed fs p s)) = watches s
  /\ (forall k, k <> "serverOptions" ->
       otherConf (snd (crl_changed fs p s)) !! k = otherConf s !! k)
  /\ (forall so, serverOptions_of s = Some so ->
       exists so',
         serverOptions_of (snd (crl_changed fs p s)) = Some so'
         /\ name so' = name so
         /\ version so' = version so
         /\ acceptable so' = acceptable so
         /\ (httpsServerOptions so' = httpsServerOptions so
             \/ exists o o',
                  httpsServerOptions so = Some o
                  /\ httpsServerOptions so' = Some o'
                  /\ key o' = key o
                  /\ cert o' = cert o
                  /\ ca o' = ca o
                  /\ requestCert o' = requestCert o
                  /\ rejectUnauthorized o' = rejectUnauthorized o))
  /\ (serverOptions_of s = None ->
      otherConf (snd (crl_changed fs p s)) = otherConf s).
Proof.
  rewrite crl_changed_cases.
  destruct (fs !! p) as [buf|]; cbn [snd].
  - destruct (serverOptions_of s) as [so|] eqn:Hso.
    + destruct (httpsServerOptions so) as [o|] eqn:Ho; cbn [snd].
      * repeat split.
        -- intros k Hk. cbn [otherConf log set_otherConf].
           apply lookup_insert_ne. congruence.
        -- intros so0 [= <-]. eexists. split; [apply serverOptions_of_insert|].
           repeat split. right. exists o, (with_crl buf o). repeat split. exact Ho.
        -- discriminate.
      * repeat split; try discriminate.
        intros so0 [= <-]. exists so. rewrite serverOptions_of_log.
        repeat split; auto.
    + repeat split; discriminate.
  - repeat split.
    intros so Hso. exists so. rewrite serverOptions_of_log. repeat split; auto.
Qed.

Lemma crl_reload_frame_witness :
  ("throttleOptions" <> "serverOptions"
   /\ exists so, serverOptions_of tls_state = Some so)
  /\ otherConf (snd (crl_changed tls_fs "/etc/gw/crl.pem" tls_state)) !! "throttleOptions"
       = otherConf tls_state !! "throttleOptions"
  /\ exists so', serverOptions_of (snd (crl_changed tls_fs "/etc/gw/crl.pem" tls_state))
                   = Some so'.
Proof.
  assert (Hne : "throttleOptions" <> "serverOptions") by discriminate.
  destruct (serverOptions_of tls_state) as [so|] eqn:Hso;
    [|vm_compute in Hso; discriminate Hso].
  split; [split; [exact Hne|exists so; reflexivity]|].
  destruct (crl_reload_frame (H := sample_platform) tls_fs "/etc/gw/crl.pem" tls_state)
    as (_ & _ & _ & _ & Hother & Hserver & _).
  split; [exact (Hother _ Hne)|].
  destruct (Hserver so Hso) as (so' & Hso' & _). exists so'. exact Hso'.
Defined.

(** ** The throttle bundle *)

(** C8.  Every run of the throttle builder that returns has stored a bundle
    whose override table maps ['127.0.0.1'] to rate 0 and burst 0, whatever
    the configured burst and rate; on a validated store the builder
    returns; and in every state of the initialized module [get] hands back
    a throttle bundle with that override. *)
Theorem throttle_loopback_exempt `{Platform} :
  (forall s s', build_throttleOptions s = (Return tt, s') ->
     exists o, otherConf s' !! "throttleOptions" = Some (BThrottle o)
       /\ overrides o !! "127.0.0.1"
            = Some {| override_rate := 0; override_burst := 0 |})
  /\ (forall s, valid (convictConf s) ->
        exists s', build_throttleOptions s = (Return tt, s'))
  /\ (forall s, reachable s ->
        exists o, get "throttleOptions" s = (Return (GotBundle (BThrottle o)), s)
          /\ overrides o !! "127.0.0.1"
               = Some {| override_rate := 0; override_burst := 0 |}).
Proof.
  split; [|split].
  - intros s s' Hrun.
    apply build_throttleOptions_returns in Hrun as (b & r & ->).
    eexists. split; [apply lookup_insert_eq|]. apply lookup_insert_eq.
  - intros s Hv.
    setting Hv 20%nat "throttle.burst" b Hb Fb.
    setting Hv 21%nat "throttle.rate" r Hr Fr.
    eexists. unfold build_throttleOptions, bind.
    rewrite (convict_get_eq _ _ _ Hb), (convict_get_eq _ _ _ Hr). reflexivity.
  - intros s Hs. destruct (reachable_inv s Hs) as (_ & (b & r & Hth) & _).
    eexists. split.
    + unfold get, has_property. rewrite Hth.
      rewrite bool_decide_eq_true_2 by (eexists; reflexivity). reflexivity.
    + apply lookup_insert_eq.
Qed.

Lemma throttle_loopback_exempt_witness :
  reachable (H := sample_platform) tls_state
  /\ exists o, get "throttleOptions" tls_state = (Return (GotBundle (BThrottle o)), tls_state)
       /\ overrides o !! "127.0.0.1"
            = Some {| override_rate := 0; override_burst := 0 |}.
Proof.
  split; [exact tls_state_reachable|].
  destruct (throttle_loopback_exempt (H := sample_platform)) as (_ & _ & Hget).
  exact (Hget tls_state tls_state_reachable).
Defined.

(** ** The revocation list without TLS *)

(** C9.  When [https.enable] is false the server builder returns without
    reading any file and without arming any watch, and the bundle it stores
    has no [httpsServerOptions], whatever the value of [https.crl]; and in
    every state of the module initialized that way there is no watch, the
    module has read no file and delivered nothing, and the server bundle
    has no [httpsServerOptions], hence no revocation buffer. *)
Theorem crl_ignored_without_https `{Platform} :
  (forall fs s en,
     valid (convictConf s) ->
     store_get (convictConf s) "https.enable" = Some en ->
     truthy en = false ->
     exists s' so,
       build_serverOptions fs s = (Return tt, s')
       /\ serverOptions_of s' = Some so
       /\ httpsServerOptions so = None
       /\ watches s' = watches s
       /\ effects s' = effects s)
  /\ (forall s en,
       reachable s ->
       store_get (convictConf s) "https.enable" = Some en ->
       truthy en = false ->
       watches s = [] /\ effects s = []
       /\ exists so, serverOptions_of s = Some so /\ httpsServerOptions so = None).
Proof.
  split.
  - intros fs s en Hv Hen Hf.
    setting Hv 17%nat "service.name" nm Hnm Fnm.
    setting Hv 18%nat "service.version" ver Hver Fver.
    eexists _, _.
    split; [apply (build_serverOptions_plain fs s _ _ _ Hnm Hver Hen Hf)|].
    split; [apply serverOptions_of_insert|]. repeat split.
  - intros s en Hs Hen Hf.
    destruct (reachable_inv s Hs) as (_ & _ & so & Hso & _ & Hoff).
    destruct (Hoff en Hen Hf) as (Hnone & Hw & He).
    repeat split; try assumption. exists so. split; assumption.
Qed.

Lemma crl_ignored_without_https_witness :
  (reachable (H := sample_platform) crl_only_state
   /\ store_get (convictConf crl_only_state) "https.enable" = Some (VBool false)
   /\ store_get (convictConf crl_only_state) "https.crl" = Some (VStr "/etc/gw/crl.pem")
   /\ truthy (VBool false) = false)
  /\ watches crl_only_state = [] /\ effects crl_only_state = []
  /\ exists so, serverOptions_of crl_only_state = Some so /\ httpsServerOptions so = None.
Proof.
  assert (Hen : store_get (convictConf crl_only_state) "https.enable" = Some (VBool false))
    by (vm_compute; reflexivity).
  split.
  - split; [exact crl_only_state_reachable|]. split; [exact Hen|].
    split; [vm_compute; reflexivity|reflexivity].
  - destruct (crl_ignored_without_https (H := sample_platform)) as (_ & Hreach).
    exact (Hreach crl_only_state (VBool false) crl_only_state_reachable Hen eq_refl).
Defined.

(** ** The accessor *)

Section Accessor.
Context `{Platform}.

(** A name that is a property of [otherConf] itself yields the bundle, and
    the store is not consulted. *)
Lemma get_bundle name b s :
  otherConf s !! name = Some b -> get name s = (Return (GotBundle b), s).
Proof.
  intros Hb. unfold get, has_property. rewrite Hb.
  rewrite bool_decide_eq_true_2 by (eexists; reflexivity). reflexivity.
Qed.

(** A name that is neither a property of [otherConf] nor inherited from
    [Object.prototype] goes to the store. *)
Lemma get_delegates name s :
  otherConf s !! name = None ->
  name ∉ Object_prototype ->
  get name s =
    match store_get (convictConf s) name with
    | Some v => (Return (GotValue v), s)
    | None => (Throw (NotFound name), s)
    end.
Proof.
  intros Hb Hp. unfold get, has_property. rewrite Hb.
  rewrite bool_decide_eq_false_2 by (intros [? ?]; discriminate).
  rewrite bool_decide_eq_false_2 by exact Hp. reflexivity.
Qed.

End Accessor.

(** C4, where the code departs from it.  For the name ['toString'], which
    every object inherits from [Object.prototype], [get] never consults the
    store and never reports not-found: it returns what [otherConf] holds
    under that name, own or inherited.  In the default configuration
    ['toString'] names no bundle and no setting, and [get] returns the
    inherited member. *)
Theorem get_inherited_name :
  (forall s : State,
     get "toString" s =
       (Return (match otherConf s !! "toString" with
                | Some b => GotBundle b
                | None => GotInherited "toString"
                end), s))
  /\ otherConf default_state !! "toString" = None
  /\ store_get (convictConf default_state) "toString" = None
  /\ get "toString" default_state = (Return (GotInherited "toString"), default_state).
Proof.
  assert (Hgen : forall s : State,
             get "toString" s =
               (Return (match otherConf s !! "toString" with
                        | Some b => GotBundle b
                        | None => GotInherited "toString"
                        end), s)).
  { intros s. unfold get, has_property.
    rewrite (bool_decide_eq_true_2 ("toString" ∈ Object_prototype))
      by (unfold Object_prototype; set_solver).
    rewrite orb_true_r. destruct (otherConf s !! "toString"); reflexivity. }
  split; [exact Hgen|].
  assert (Hnone : otherConf default_state !! "toString" = None)
    by (vm_compute; reflexivity).
  split; [exact Hnone|]. split; [vm_compute; reflexivity|].
  rewrite Hgen, Hnone. reflexivity.
Qed.

(** ** Paths in the store *)

Lemma walk_cons k p t :
  walk (k :: p) t =
    match t with
    | VObj o => match o !! k with Some c => walk p c | None => None end
    | _ => None
    end.
Proof. reflexivity. Qed.

Lemma set_path_cons k p v t :
  set_path (k :: p) v t =
    VObj (<[k := set_path p v
                   (default (VObj ∅) (match t with VObj o => o | _ => ∅ end !! k))]>
            (match t with VObj o => o | _ => ∅ end)).
Proof. reflexivity. Qed.

Lemma walk_set_path_same p v t : walk p (set_path p v t) = Some v.
Proof.
  revert t. induction p as [|k p IH]; intros t; [reflexivity|].
  rewrite set_path_cons, walk_cons, lookup_insert_eq. apply IH.
Qed.

Lemma walk_empty p : p <> [] -> walk p (VObj ∅) = None.
Proof. destruct p as [|k p]; [congruence|]. intros _. rewrite walk_cons, lookup_empty. reflexivity. Qed.

Lemma walk_set_path_other p q v t :
  ~ p `prefix_of` q -> ~ q `prefix_of` p ->
  walk p (set_path q v t) = walk p t.
Proof.
  revert q t. induction p as [|k p IH]; intros q t Hpq Hqp.
  - destruct Hpq. apply prefix_nil.
  - destruct q as [|k' q]; [destruct Hqp; apply prefix_nil|].
    rewrite set_path_cons, !walk_cons.
    destruct (decide (k' = k)) as [->|Hk].
    + rewrite lookup_insert_eq.
      assert (Hp : p <> []).
      { intros ->. apply Hpq. exists q. reflexivity. }
      rewrite IH.
      * destruct t as [| | | | |o]; try (rewrite lookup_empty; apply walk_empty, Hp).
        destruct (o !! k); [reflexivity|apply walk_empty, Hp].
      * intros Hpre. apply Hpq. apply prefix_cons, Hpre.
      * intros Hpre. apply Hqp. apply prefix_cons, Hpre.
    + rewrite lookup_insert_ne by exact Hk.
      destruct t; try (rewrite lookup_empty); reflexivity.
Qed.

(** In a schema whose paths are unrelated, the resolved store holds at the
    path of each entry the value resolved for that entry. *)
Lemma resolve_lookup sch file environ argv e :
  paths_unrelated (map e_path sch) = true ->
  e ∈ sch ->
  walk (e_path e) (resolve sch file environ argv)
    = Some (resolve_entry file environ argv e).
Proof.
  induction sch as [|e0 sch IH]; intros Hun He; [inversion He|].
  cbn [map paths_unrelated] in Hun. apply andb_true_iff in Hun as [Hhd Htl].
  unfold resolve. cbn [foldr]. fold (resolve sch file environ argv).
  apply elem_of_cons in He as [->|He]; [apply walk_set_path_same|].
  rewrite forallb_forall in Hhd.
  assert (Hrel : unrelated (e_path e0) (e_path e) = true).
  { apply Hhd. apply in_map. apply list_elem_of_In. exact He. }
  apply bool_decide_eq_true_1 in Hrel as [H1 H2].
  rewrite walk_set_path_other by assumption. apply IH; assumption.
Qed.

Lemma schema_paths_unrelated : paths_unrelated (map e_path schema) = true.
Proof. vm_compute. reflexivity. Qed.

Lemma schema_dotted e :
  e ∈ schema -> split_on "." (dotted (e_path e)) = e_path e.
Proof.
  assert (Hall : forallb (fun e => bool_decide (split_on "." (dotted (e_path e)) = e_path e))
                   schema = true) by (vm_compute; reflexivity).
  rewrite forallb_forall in Hall. intros He.
  apply list_elem_of_In in He. apply Hall in He.
  apply bool_decide_eq_true_1 in He. exact He.
Qed.

(** The store resolved from the sources answers the dotted name of an entry
    with the value resolved for the entry. *)
Lemma store_get_resolve file environ argv e :
  e ∈ schema ->
  store_get (resolve schema file environ argv) (dotted (e_path e))
    = Some (resolve_entry file environ argv e).
Proof.
  intros He. unfold store_get. rewrite (schema_dotted e He).
  apply resolve_lookup; [exact schema_paths_unrelated|exact He].
Qed.

(** ** Precedence of the sources *)

(** C5.  For every entry of the schema that declares a command-line flag
    and an environment variable: when the flag, the variable, the key in
    the configuration file and the default are all present, the store
    holds the value of the flag; without the flag, the value of the
    variable; without the variable either, the value of the file; and
    without a value in the file (no file, or a file without the key), the
    default of the entry. *)
Theorem layered_precedence (e : SchemaEntry) (flag var : string)
    (file : value) (environ argv : gmap string value) (va ve vf : value) :
  e ∈ schema ->
  e_arg e = Some flag ->
  e_env e = Some var ->
  argv !! flag = Some va ->
  environ !! var = Some ve ->
  walk (e_path e) file = Some vf ->
  store_get (resolve schema (Some file) environ argv) (dotted (e_path e)) = Some va
  /\ store_get (resolve schema (Some file) environ (delete flag argv))
       (dotted (e_path e)) = Some ve
  /\ store_get (resolve schema (Some file) (delete var environ) (delete flag argv))
       (dotted (e_path e)) = Some vf
  /\ (forall file',
        file' ≫= walk (e_path e) = None ->
        store_get (resolve schema file' (delete var environ) (delete flag argv))
          (dotted (e_path e)) = Some (e_default e)).
Proof.
  intros He Hflag Hvar Ha Hv Hf.
  repeat split; [| | |intros file' Hnone];
    rewrite (store_get_resolve _ _ _ e He); f_equal;
    unfold resolve_entry; rewrite Hflag, Hvar; cbn [mbind option_bind].
  - rewrite Ha. reflexivity.
  - rewrite lookup_delete_eq, Hv. reflexivity.
  - rewrite !lookup_delete_eq, Hf. reflexivity.
  - rewrite !lookup_delete_eq, Hnone. reflexivity.
Qed.

Lemma layered_precedence_witness :
  (port_entry ∈ schema
   /\ e_arg port_entry = Some "port"
   /\ e_env port_entry = Some "BLPAPI_HTTP_PORT"
   /\ port_argv !! "port" = Some (VNum 8082)
   /\ port_environ !! "BLPAPI_HTTP_PORT" = Some (VNum 8081)
   /\ walk (e_path port_entry) port_file = Some (VNum 8083))
  /\ store_get (resolve schema (Some port_file) port_environ port_argv) "port"
       = Some (VNum 8082)
  /\ store_get (resolve schema (Some port_file) port_environ (delete "port" port_argv))
       "port" = Some (VNum 8081)
  /\ store_get (resolve schema (Some port_file) (delete "BLPAPI_HTTP_PORT" port_environ)
                  (delete "port" port_argv)) "port" = Some (VNum 8083)
  /\ store_get (resolve schema None (delete "BLPAPI_HTTP_PORT" port_environ)
                  (delete "port" port_argv)) "port" = Some (VNum 80).
Proof.
  assert (Hin : port_entry ∈ schema).
  { apply (list_elem_of_lookup_2 schema 4%nat). reflexivity. }
  assert (Ha : port_argv !! "port" = Some (VNum 8082)) by apply lookup_insert_eq.
  assert (He : port_environ !! "BLPAPI_HTTP_PORT" = Some (VNum 8081))
    by apply lookup_insert_eq.
  assert (Hf : walk (e_path port_entry) port_file = Some (VNum 8083))
    by (vm_compute; reflexivity).
  split; [repeat split; assumption|].
  destruct (layered_precedence port_entry "port" "BLPAPI_HTTP_PORT" port_file
              port_environ port_argv _ _ _ Hin eq_refl eq_refl Ha He Hf)
    as (H1 & H2 & H3 & H4).
  split; [exact H1|]. split; [exact H2|]. split; [exact H3|].
  exact (H4 None eq_refl).
Defined.

(** ** Validation *)

Section Validation.
Context `{Platform}.

Lemma first_violation_app l1 e l2 t :
  Forall (fun e' => entry_ok t e' = true) l1 ->
  entry_ok t e = false ->
  first_violation (l1 ++ e :: l2) t = Some (e_path e, e_format e).
Proof.
  intros Hl1 He. induction Hl1 as [|e' l1 He' _ IH]; cbn [app first_violation].
  - rewrite He. reflexivity.
  - rewrite He'. exact IH.
Qed.

Lemma first_violation_Some sch t e :
  e ∈ sch -> entry_ok t e = false -> is_Some (first_violation sch t).
Proof.
  intros He Hbad. destruct (first_violation sch t) eqn:Hfv; [eexists; reflexivity|].
  apply first_violation_None in Hfv. rewrite Forall_forall in Hfv.
  specialize (Hfv e He). congruence.
Qed.

End Validation.

(** C6.  A value passes the port format exactly when it is an integer
    between 1 and 65535: 1 and 65535 pass, 0 and 70000 do not; a value
    passes the IP-address format exactly when it is a string of IP-address
    syntax.  Validation of a store in which the value of an entry fails
    its format throws a validation error; when the entries declared before
    it are in order, the error names the key path of that entry and its
    expected format; and validation of a store in which every entry passes
    returns. *)
Theorem port_and_ip_validation `{Platform} :
  (forall v, check_format FPort v = true <-> exists n, v = VNum n /\ 1 <= n <= 65535)
  /\ check_format FPort (VNum 1) = true
  /\ check_format FPort (VNum 65535) = true
  /\ check_format FPort (VNum 0) = false
  /\ check_format FPort (VNum 70000) = false
  /\ (forall v, check_format FIpaddress v = true <-> exists a, v = VStr a /\ is_ip a = true)
  /\ (forall s l1 e l2 v,
        schema = l1 ++ e :: l2 ->
        Forall (fun e' => entry_ok (convictConf s) e' = true) l1 ->
        walk (e_path e) (convictConf s) = Some v ->
        check_format (e_format e) v = false ->
        validate s = (Throw (SchemaValidationError (e_path e) (e_format e)), s))
  /\ (forall s e v,
        e ∈ schema ->
        walk (e_path e) (convictConf s) = Some v ->
        check_format (e_format e) v = false ->
        exists k f, validate s = (Throw (SchemaValidationError k f), s))
  /\ (forall s, valid (convictConf s) -> validate s = (Return tt, s)).
Proof.
  split; [apply check_port|].
  repeat (split; [reflexivity|]).
  split; [|split; [|split]].
  - intros v. split.
    + destruct v; simpl; try discriminate. eauto.
    + intros (a & -> & Ha). exact Ha.
  - intros s l1 e l2 v Hsch Hl1 Hv Hbad. unfold validate. rewrite Hsch.
    rewrite (first_violation_app l1 e l2 _ Hl1); [reflexivity|].
    unfold entry_ok. rewrite Hv. exact Hbad.
  - intros s e v He Hv Hbad. unfold validate.
    destruct (first_violation_Some schema (convictConf s) e He) as [[k f] Hfv].
    { unfold entry_ok. rewrite Hv. exact Hbad. }
    rewrite Hfv. exists k, f. reflexivity.
  - intros s Hv. unfold validate. rewrite Hv. reflexivity.
Qed.

Lemma port_and_ip_validation_witness :
  (schema = take 4 schema ++ port_entry :: drop 5 schema
   /\ walk (e_path port_entry) (convictConf port_zero_state) = Some (VNum 0)
   /\ check_format (H := sample_platform) (e_format port_entry) (VNum 0) = false)
  /\ validate (H := sample_platform) port_zero_state
       = (Throw (SchemaValidationError ["port"] FPort), port_zero_state)
  /\ check_format (H := sample_platform) FIpaddress (VStr "localhost") = false.
Proof.
  assert (Hv : walk (e_path port_entry) (convictConf port_zero_state) = Some (VNum 0))
    by (vm_compute; reflexivity).
  split; [split; [reflexivity|split; [exact Hv|reflexivity]]|].
  destruct (port_and_ip_validation (H := sample_platform))
    as (_ & _ & _ & _ & _ & Hip & Hfirst & _).
  split.
  - apply (Hfirst port_zero_state (take 4 schema) port_entry (drop 5 schema) (VNum 0));
      [reflexivity| |exact Hv|reflexivity].
    repeat constructor; vm_compute; reflexivity.
  - destruct (check_format (H := sample_platform) FIpaddress (VStr "localhost")) eqn:Hc;
      [|reflexivity].
    apply Hip in Hc as (a & [= <-] & Ha). vm_compute in Ha. discriminate Ha.
Defined.

(** * Further properties of the module *)

(** ** The certificate serializer *)

(** X1.  The certificate serializer hands a falsy input back unchanged;
    given an object whose [subject] is an object, it returns an object with
    exactly the properties [CN] and [fingerprint], read from the subject
    and from the certificate; and given a truthy input whose [subject] is
    missing or [null] (the empty object among them) it throws. *)
Theorem cert_serializer_spec (cert : value) :
  (truthy cert = false -> cert_serializer cert = Some cert)
  /\ (forall o sub, cert = VObj o -> o !! "subject" = Some (VObj sub) ->
      exists o', cert_serializer cert = Some (VObj o')
        /\ dom o' = {[ "CN"; "fingerprint" ]}
        /\ o' !! "CN" = Some (default VUndefined (sub !! "CN"))
        /\ o' !! "fingerprint" = Some (default VUndefined (o !! "fingerprint")))
  /\ (truthy cert = true ->
      get_prop cert "subject" = Some VUndefined \/ get_prop cert "subject" = Some VNull ->
      cert_serializer cert = None).
Proof.
  split; [|split].
  - intros Hf. unfold cert_serializer. rewrite Hf. reflexivity.
  - intros o sub -> Hsub. unfold cert_serializer. simpl. rewrite Hsub. simpl.
    eexists. split; [reflexivity|]. split; [|split].
    + rewrite !dom_insert_L, dom_empty_L. set_solver.
    + apply lookup_insert_eq.
    + rewrite lookup_insert_ne by discriminate. apply lookup_insert_eq.
  - intros Ht Hsub. unfold cert_serializer. rewrite Ht. cbn [negb].
    destruct Hsub as [-> | ->]; reflexivity.
Qed.

Lemma cert_serializer_spec_witness :
  (truthy (VObj ∅) = true /\ get_prop (VObj ∅) "subject" = Some VUndefined)
  /\ cert_serializer (VObj ∅) = None.
Proof.
  split; [split; reflexivity|].
  destruct (cert_serializer_spec (VObj ∅)) as (_ & _ & Hthrow).
  apply Hthrow; [reflexivity|left; reflexivity].
Defined.

(** ** The builders on a validated store *)

Section BuildersRun.
Context `{Platform}.

Lemma build_loggerOptions_run s :
  valid (convictConf s) ->
  exists lvl pth (out : bool) nm strs,
    store_get (convictConf s) "logging.logfileLevel" = Some lvl
    /\ store_get (convictConf s) "logging.logfile" = Some pth
    /\ store_get (convictConf s) "logging.stdout" = Some (VBool out)
    /\ store_get (convictConf s) "service.name" = Some nm
    /\ (if out
        then exists l,
               store_get (convictConf s) "logging.stdoutLevel" = Some l
               /\ strs = [ {| level := lvl; target := ToPath pth |};
                           {| level := l; target := ToStdout |} ]
        else strs = [ {| level := lvl; target := ToPath pth |} ])
    /\ build_loggerOptions s =
         (Return tt,
          set_otherConf
            (<["loggerOptions" :=
                 BLogger {| logger_name := nm; streams := strs;
                            serializers := stdSerializers s |}]> (otherConf s)) s).
Proof.
  intros Hv.
  setting Hv 14%nat "logging.logfileLevel" lvl Hlvl Flvl.
  setting Hv 13%nat "logging.logfile" pth Hpth Fpth.
  setting Hv 11%nat "logging.stdout" out Hout Fout.
  apply check_boolean in Fout as [out' ->].
  setting Hv 12%nat "logging.stdoutLevel" l Hl Fl.
  setting Hv 17%nat "service.name" nm Hnm Fnm.
  exists lvl, pth, out', nm.
  destruct out'.
  - eexists. repeat (split; [eassumption|]).
    split; [exists l; split; [exact Hl|reflexivity]|].
    unfold build_loggerOptions, bind.
    rewrite (convict_get_eq _ _ _ Hlvl), (convict_get_eq _ _ _ Hpth),
      (convict_get_eq _ _ _ Hout).
    cbn [truthy]. rewrite (convict_get_eq _ _ _ Hl). unfold ret.
    rewrite (convict_get_eq _ _ _ Hnm). reflexivity.
  - eexists. repeat (split; [eassumption|]).
    split; [reflexivity|].
    unfold build_loggerOptions, bind.
    rewrite (convict_get_eq _ _ _ Hlvl), (convict_get_eq _ _ _ Hpth),
      (convict_get_eq _ _ _ Hout).
    cbn [truthy]. unfold ret.
    rewrite (convict_get_eq _ _ _ Hnm). reflexivity.
Qed.

Lemma build_bodyParserOptions_run s :
  valid (convictConf s) ->
  exists sz,
    store_get (convictConf s) "maxBodySize" = Some sz
    /\ build_bodyParserOptions s =
         (Return tt,
          set_otherConf
            (<["bodyParserOptions" :=
                 BBodyParser {| maxBodySize := sz; mapParams := false |}]>
               (otherConf s)) s).
Proof.
  intros Hv. setting Hv 19%nat "maxBodySize" sz Hsz Fsz.
  exists sz. split; [exact Hsz|].
  unfold build_bodyParserOptions, bind. rewrite (convict_get_eq _ _ _ Hsz). reflexivity.
Qed.

Lemma build_throttleOptions_run s :
  valid (convictConf s) ->
  exists b r,
    store_get (convictConf s) "throttle.burst" = Some b
    /\ store_get (convictConf s) "throttle.rate" = Some r
    /\ build_throttleOptions s =
         (Return tt,
          set_otherConf
            (<["throttleOptions" :=
                 BThrottle {| burst := b; rate := r; ip := true;
                              overrides :=
                                <["127.0.0.1" :=
                                    {| override_rate := 0; override_burst := 0 |}]> ∅ |}]>
               (otherConf s)) s).
Proof.
  intros Hv.
  setting Hv 20%nat "throttle.burst" b Hb Fb.
  setting Hv 21%nat "throttle.rate" r Hr Fr.
  exists b, r. split; [exact Hb|]. split; [exact Hr|].
  unfold build_throttleOptions, bind.
  rewrite (convict_get_eq _ _ _ Hb), (convict_get_eq _ _ _ Hr). reflexivity.
Qed.

(** The session builder on a validated store, in one equation. *)
Lemma build_sessionOptions_run s :
  valid (convictConf s) ->
  exists host port appName mode,
    store_get (convictConf s) "api.host" = Some host
    /\ store_get (convictConf s) "api.port" = Some port
    /\ store_get (convictConf s) "api.authenticationAppName" = Some (VStr appName)
    /\ store_get (convictConf s) "api.authenticationMode" = Some (VStr mode)
    /\ build_sessionOptions s =
         if decide (appName = "") then
           (Return tt,
            set_otherConf
              (<["sessionOptions" :=
                   BSession
                     {| blpapiSessionOptions :=
                          {| serverHost := host; serverPort := port;
                             authenticationOptions := None |};
                        authorizeOnStartup := false |}]> (otherConf s)) s)
         else if decide (mode = "APPLICATION_ONLY") then
           (Return tt,
            set_otherConf
              (<["sessionOptions" :=
                   BSession
                     {| blpapiSessionOptions :=
                          {| serverHost := host; serverPort := port;
                             authenticationOptions :=
                               Some ("AuthenticationMode=" +:+ mode +:+
                                     ";ApplicationAuthenticationType=APPNAME_AND_KEY;ApplicationName="
                                     +:+ appName) |};
                        authorizeOnStartup := true |}]> (otherConf s)) s)
         else
           (Throw (Error ("Bad value for api.authenticationMode: " +:+ mode)), s).
Proof.
  intros Hv.
  setting Hv 0%nat "api.host" host Hhost Fhost.
  setting Hv 1%nat "api.port" port Hport Fport.
  string_setting Hv 2%nat "api.authenticationMode" mode Hmode.
  string_setting Hv 3%nat "api.authenticationAppName" appName Happ.
  exists host, port, appName, mode.
  repeat (split; [assumption|]).
  unfold build_sessionOptions, bind.
  rewrite (convict_get_eq _ _ _ Hhost), (convict_get_eq _ _ _ Hport),
    (convict_get_eq _ _ _ Happ).
  destruct (decide (appName = "")) as [->|Hne].
  - rewrite strict_ne_str_eq. reflexivity.
  - rewrite (strict_ne_str_ne _ _ Hne), (convict_get_eq _ _ _ Hmode).
    destruct (decide (mode = "APPLICATION_ONLY")) as [->|Hm].
    + rewrite strict_ne_str_eq. reflexivity.
    + rewrite (strict_ne_str_ne _ _ Hm). reflexivity.
Qed.

(** The module when the store has been validated and the builders are
    about to run. *)
Lemma initialize_returns_detail fs environ argv std s :
  initialize fs environ argv (loaded std) = (Return tt, s) ->
  exists sB,
    valid (convictConf sB)
    /\ otherConf sB = ∅ /\ stdSerializers sB = std
    /\ listeners sB = ∅ /\ watches sB = [] /\ effects sB = []
    /\ (build_loggerOptions ;; build_bodyParserOptions ;; build_throttleOptions ;;
        build_serverOptions fs ;; build_sessionOptions)
         (set_stdSerializers (<["cert" := SerCert]> (<["res" := SerRes]> std)) sB)
       = (Return tt, s).
Proof.
  intros Hrun. unfold initialize in Hrun.
  unfold bind at 1 2 3 in Hrun. unfold modify at 1 2 in Hrun.
  set (sA := set_convictConf _ _) in Hrun.
  destruct ((if truthy (default VUndefined (argv !! "cfg"))
             then loadFile fs environ argv (default VUndefined (argv !! "cfg"))
             else ret ()) sA) as [u sB] eqn:EB.
  destruct u as [[]|e]; [|discriminate Hrun].
  assert (HB : otherConf sB = ∅ /\ stdSerializers sB = std
               /\ listeners sB = ∅ /\ watches sB = [] /\ effects sB = []).
  { destruct (truthy _) in EB.
    - unfold loadFile in EB.
      destruct (default VUndefined (argv !! "cfg")) as [| | | |cfg|];
        try discriminate EB.
      destruct (fs !! cfg ≫= parse_config); [|discriminate EB].
      injection EB as <-. repeat split.
    - injection EB as <-. repeat split. }
  clear EB. destruct HB as (HO & HS & HL & HW & HE).
  unfold bind at 1 in Hrun. unfold validate at 1 in Hrun.
  destruct (first_violation schema (convictConf sB)) as [[k f]|] eqn:Hvalid;
    [discriminate Hrun|].
  unfold bind at 1 in Hrun. unfold install_serializers, modify in Hrun.
  exists sB. repeat (split; [assumption|]). rewrite <- HS. exact Hrun.
Qed.

End BuildersRun.

(** ** The shape of the initialized module *)

Section Shape.
Context `{Platform}.

(** What a returning run of the server builder has stored. *)
Lemma build_serverOptions_returns fs s s' :
  valid (convictConf s) ->
  build_serverOptions fs s = (Return tt, s') ->
  exists nm ver (en : bool) kp cp tp rp so,
    store_get (convictConf s) "service.name" = Some nm
    /\ store_get (convictConf s) "service.version" = Some ver
    /\ store_get (convictConf s) "https.enable" = Some (VBool en)
    /\ store_get (convictConf s) "https.key" = Some (VStr kp)
    /\ store_get (convictConf s) "https.cert" = Some (VStr cp)
    /\ store_get (convictConf s) "https.ca" = Some (VStr tp)
    /\ store_get (convictConf s) "https.crl" = Some (VStr rp)
    /\ otherConf s' = <["serverOptions" := BServer so]> (otherConf s)
    /\ convictConf s' = convictConf s
    /\ stdSerializers s' = stdSerializers s
    /\ listeners s' = listeners s
    /\ name so = nm /\ version so = ver /\ acceptable so = ["application/json"]
    /\ (en = false ->
        httpsServerOptions so = None /\ watches s' = watches s
        /\ effects s' = effects s)
    /\ (en = true ->
        exists o,
          httpsServerOptions so = Some o
          /\ fs !! path_resolve __dirname kp = Some (key o)
          /\ fs !! path_resolve __dirname cp = Some (cert o)
          /\ fs !! path_resolve __dirname tp = Some (ca o)
          /\ requestCert o = true /\ rejectUnauthorized o = true
          /\ (rp = "" -> crl o = None /\ watches s' = watches s)
          /\ (rp <> "" ->
              crl o = fs !! path_resolve __dirname rp /\ is_Some (crl o)
              /\ watches s' = watches s ++ [path_resolve __dirname rp])).
Proof.
  intros Hv Hrun.
  setting Hv 17%nat "service.name" nm Hnm Fnm.
  setting Hv 18%nat "service.version" ver Hver Fver.
  setting Hv 6%nat "https.enable" en Hen Fen.
  apply check_boolean in Fen as [en' ->].
  string_setting Hv 9%nat "https.key" kp Hkp.
  string_setting Hv 8%nat "https.cert" cp Hcp.
  string_setting Hv 7%nat "https.ca" tp Htp.
  string_setting Hv 10%nat "https.crl" rp Hrp.
  exists nm, ver, en', kp, cp, tp, rp.
  destruct en'.
  - pose proof (build_serverOptions_tls fs s _ _ _ _ _ _ _
                  Hnm Hver Hen Hkp Hcp Htp Hrp eq_refl) as Ht.
    rewrite Hrun in Ht.
    destruct Ht as (k & c & a & Hk & Hc & Ha & Hconf & Hser & Hlis & Hcases).
    destruct Hcases as [(-> & Hoc & Hw & He)|(Hne & r & Hr & Hoc & Hw & He)].
    + eexists. repeat (split; [eassumption|]).
      repeat (split; [reflexivity|]).
      split; [discriminate|]. intros _. eexists.
      split; [reflexivity|]. cbn [key cert ca requestCert rejectUnauthorized crl].
      repeat (split; [assumption || reflexivity|]).
      split; [intros _; split; [reflexivity|assumption]|].
      intros Hrp'. destruct (Hrp' eq_refl).
    + eexists. repeat (split; [eassumption|]).
      repeat (split; [reflexivity|]).
      split; [discriminate|]. intros _. eexists.
      split; [reflexivity|]. cbn [key cert ca requestCert rejectUnauthorized crl].
      repeat (split; [assumption || reflexivity|]).
      split; [intros Hrp'; destruct (Hne Hrp')|]. intros _.
      split; [symmetry; exact Hr|]. split; [eexists; reflexivity|exact Hw].
  - rewrite (build_serverOptions_plain fs s _ _ _ Hnm Hver Hen eq_refl) in Hrun.
    injection Hrun as <-. eexists. repeat (split; [eassumption|]).
    repeat (split; [reflexivity|]).
    split; [intros _; repeat split|discriminate].
Qed.

(** What the callback of the watch leaves alone. *)
Lemma crl_changed_others fs p s :
  convictConf (snd (crl_changed fs p s)) = convictConf s
  /\ stdSerializers (snd (crl_changed fs p s)) = stdSerializers s
  /\ listeners (snd (crl_changed fs p s)) = listeners s
  /\ watches (snd (crl_changed fs p s)) = watches s
  /\ (forall k, k <> "serverOptions" ->
       otherConf (snd (crl_changed fs p s)) !! k = otherConf s !! k)
  /\ dom (otherConf (snd (crl_changed fs p s))) = dom (otherConf s).
Proof.
  rewrite crl_changed_cases.
  destruct (fs !! p) as [buf|]; [|repeat split].
  unfold serverOptions_of.
  destruct (otherConf s !! "serverOptions") as [[| | |so|]|] eqn:Hso;
    try (repeat split; fail).
  destruct (httpsServerOptions so) as [o|]; [|repeat split].
  cbn [snd convictConf stdSerializers listeners watches otherConf log set_otherConf].
  repeat split.
  - intros k Hk. apply lookup_insert_ne. congruence.
  - apply dom_insert_lookup_L. rewrite Hso. eexists. reflexivity.
Qed.

End Shape.

Section Invariant.
Context `{Platform}.

(** Every state of the initialized module holds the five bundles, each
    built from the settings of the validated store. *)
Lemma reachable_bundles s :
  reachable s ->
  valid (convictConf s)
  /\ (stdSerializers s !! "res" = Some SerRes /\ stdSerializers s !! "cert" = Some SerCert)
  /\ dom (otherConf s) =
       {[ "loggerOptions"; "bodyParserOptions"; "throttleOptions";
          "serverOptions"; "sessionOptions" ]}
  /\ (exists lvl pth (out : bool) nm strs,
        store_get (convictConf s) "logging.logfileLevel" = Some lvl
        /\ store_get (convictConf s) "logging.logfile" = Some pth
        /\ store_get (convictConf s) "logging.stdout" = Some (VBool out)
        /\ store_get (convictConf s) "service.name" = Some nm
        /\ (if out
            then exists l,
                   store_get (convictConf s) "logging.stdoutLevel" = Some l
                   /\ strs = [ {| level := lvl; target := ToPath pth |};
                               {| level := l; target := ToStdout |} ]
            else strs = [ {| level := lvl; target := ToPath pth |} ])
        /\ otherConf s !! "loggerOptions" =
             Some (BLogger {| logger_name := nm; streams := strs;
                              serializers := stdSerializers s |}))
  /\ (exists sz,
        store_get (convictConf s) "maxBodySize" = Some sz
        /\ otherConf s !! "bodyParserOptions" =
             Some (BBodyParser {| maxBodySize := sz; mapParams := false |}))
  /\ (exists b r,
        store_get (convictConf s) "throttle.burst" = Some b
        /\ store_get (convictConf s) "throttle.rate" = Some r
        /\ otherConf s !! "throttleOptions" =
             Some (BThrottle {| burst := b; rate := r; ip := true;
                                overrides :=
                                  <["127.0.0.1" :=
                                      {| override_rate := 0; override_burst := 0 |}]> ∅ |}))
  /\ (exists nm ver (en : bool) rp so,
        store_get (convictConf s) "service.name" = Some nm
        /\ store_get (convictConf s) "service.version" = Some ver
        /\ store_get (convictConf s) "https.enable" = Some (VBool en)
        /\ store_get (convictConf s) "https.crl" = Some (VStr rp)
        /\ otherConf s !! "serverOptions" = Some (BServer so)
        /\ name so = nm /\ version so = ver /\ acceptable so = ["application/json"]
        /\ (en = false -> httpsServerOptions so = None /\ watches s = [])
        /\ (en = true ->
            exists o,
              httpsServerOptions so = Some o
              /\ requestCert o = true /\ rejectUnauthorized o = true
              /\ (rp = "" -> crl o = None /\ watches s = [])
              /\ (rp <> "" ->
                  is_Some (crl o) /\ watches s = [path_resolve __dirname rp])))
  /\ (exists host port appName mode,
        store_get (convictConf s) "api.host" = Some host
        /\ store_get (convictConf s) "api.port" = Some port
        /\ store_get (convictConf s) "api.authenticationAppName" = Some (VStr appName)
        /\ store_get (convictConf s) "api.authenticationMode" = Some (VStr mode)
        /\ (appName <> "" -> mode = "APPLICATION_ONLY")
        /\ otherConf s !! "sessionOptions" =
             Some (BSession
                     {| blpapiSessionOptions :=
                          {| serverHost := host; serverPort := port;
                             authenticationOptions :=
                               if decide (appName = "") then None
                               else Some ("AuthenticationMode=" +:+ mode +:+
                                          ";ApplicationAuthenticationType=APPNAME_AND_KEY;ApplicationName="
                                          +:+ appName) |};
                        authorizeOnStartup := bool_decide (appName <> "") |})).
Proof.
  induction 1 as [std fs environ argv s Hrun|s ev l Hs IH|s fs p Hs IH Hp].
  - apply initialize_returns_detail in Hrun
      as (sB & Hv & HO & HS & HL & HW & HE & Hrun).
    set (s0 := set_stdSerializers _ sB) in Hrun.
    destruct (build_loggerOptions_run s0 Hv)
      as (lvl & pth & out & nm & strs & Hlvl & Hpth & Hout & Hnm & Hstrs & Hlog).
    unfold bind at 1 in Hrun. rewrite Hlog in Hrun. clear Hlog.
    set (s1 := set_otherConf _ s0) in Hrun.
    destruct (build_bodyParserOptions_run s1 Hv) as (sz & Hsz & Hbody).
    unfold bind at 1 in Hrun. rewrite Hbody in Hrun. clear Hbody.
    set (s2 := set_otherConf _ s1) in Hrun.
    destruct (build_throttleOptions_run s2 Hv) as (b & r & Hb & Hr & Hthr).
    unfold bind at 1 in Hrun. rewrite Hthr in Hrun. clear Hthr.
    set (s3 := set_otherConf _ s2) in Hrun.
    unfold bind at 1 in Hrun.
    destruct (build_serverOptions fs s3) as [[[]|e] s4] eqn:Hsrv; [|discriminate Hrun].
    destruct (build_serverOptions_returns fs s3 s4 Hv Hsrv)
      as (nm' & ver & en & kp & cp & tp & rp & so & Hnm' & Hver & Hen & _ & _ & _ & Hrp
          & Hoc & Hconf & Hser & _ & Hname & Hversion & Hacc & Hoff & Hon).
    assert (Hv4 : valid (convictConf s4)) by (rewrite Hconf; exact Hv).
    destruct (build_sessionOptions_run s4 Hv4)
      as (host & port & appName & mode & Hhost & Hport & Happ & Hmode & Hses).
    rewrite Hses in Hrun. clear Hses.
    assert (Hs : (appName <> "" -> mode = "APPLICATION_ONLY")
                 /\ s = set_otherConf
                          (<["sessionOptions" :=
                               BSession
                                 {| blpapiSessionOptions :=
                                      {| serverHost := host; serverPort := port;
                                         authenticationOptions :=
                                           if decide (appName = "") then None
                                           else Some ("AuthenticationMode=" +:+ mode +:+
                                                      ";ApplicationAuthenticationType=APPNAME_AND_KEY;ApplicationName="
                                                      +:+ appName) |};
                                    authorizeOnStartup := bool_decide (appName <> "") |}]>
                             (otherConf s4)) s4).
    { destruct (decide (appName = "")) as [->|Hne].
      - injection Hrun as <-. split; [congruence|reflexivity].
      - destruct (decide (mode = "APPLICATION_ONLY")) as [->|Hm];
          [|discriminate Hrun].
        injection Hrun as <-. split; [reflexivity|].
        rewrite bool_decide_eq_true_2 by exact Hne. reflexivity. }
    destruct Hs as (Hmode_ok & ->).
    cbn [convictConf stdSerializers otherConf watches set_otherConf].
    rewrite Hconf, Hser, Hoc.
    assert (Hw3 : watches s3 = []) by exact HW.
    subst s3 s2 s1 s0.
    cbn [convictConf stdSerializers otherConf watches set_otherConf set_stdSerializers]
      in *.
    split; [exact Hv|]. split.
    { split.
      - rewrite lookup_insert_ne by discriminate. apply lookup_insert_eq.
      - apply lookup_insert_eq. }
    split.
    { rewrite HO, !dom_insert_L, dom_empty_L. set_solver. }
    split.
    { exists lvl, pth, out, nm, strs. repeat (split; [assumption|]).
      rewrite !lookup_insert_ne by discriminate. apply lookup_insert_eq. }
    split.
    { exists sz. split; [assumption|].
      rewrite !lookup_insert_ne by discriminate. apply lookup_insert_eq. }
    split.
    { exists b, r. split; [assumption|]. split; [assumption|].
      rewrite !lookup_insert_ne by discriminate. apply lookup_insert_eq. }
    split.
    { exists nm', ver, en, rp, so. repeat (split; [assumption|]).
      split; [rewrite lookup_insert_ne by discriminate; apply lookup_insert_eq|].
      repeat (split; [assumption|]).
      split.
      - intros Hf. destruct (Hoff Hf) as (Hnone & Hw & _).
        split; [exact Hnone|]. rewrite Hw. exact Hw3.
      - intros Ht. destruct (Hon Ht) as (o & Ho & _ & _ & _ & Hrc & Hru & Hno & Hyes).
        exists o. repeat (split; [assumption|]). split.
        + intros Hrp0. destruct (Hno Hrp0) as (Hc & Hw).
          split; [exact Hc|]. rewrite Hw. exact Hw3.
        + intros Hrp0. destruct (Hyes Hrp0) as (_ & Hc & Hw).
          split; [exact Hc|]. rewrite Hw, Hw3. reflexivity. }
    exists host, port, appName, mode.
    rewrite <- Hconf. repeat (split; [assumption|]).
    apply lookup_insert_eq.
  - exact IH.
  - destruct (crl_changed_others fs p s) as (Hconf & Hser & _ & Hw & Hother & Hdom).
    destruct IH as (Hv & Hstd & Hd & Hlog & Hbody & Hthr & Hsrv & Hses).
    rewrite Hconf, Hser, Hw, Hdom.
    rewrite (Hother "loggerOptions"), (Hother "bodyParserOptions"),
      (Hother "throttleOptions"), (Hother "sessionOptions") by discriminate.
    repeat (split; [assumption|]).
    split; [|exact Hses].
    destruct Hsrv as (nm & ver & en & rp & so & Hnm & Hver & Hen & Hrp & Hso
                      & Hname & Hversion & Hacc & Hoff & Hon).
    assert (Hne : watches s <> []) by (intros Hn; rewrite Hn in Hp; inversion Hp).
    destruct en; [|destruct (Hoff eq_refl) as (_ & Hn); contradiction].
    destruct (Hon eq_refl) as (o & Ho & Hrc & Hru & Hno & Hyes).
    destruct (decide (rp = "")) as [Hrp0|Hrp0];
      [destruct (Hno Hrp0) as (_ & Hn); contradiction|].
    rewrite crl_changed_cases. unfold serverOptions_of. rewrite Hso, Ho.
    destruct (fs !! p) as [buf|]; cbn [snd otherConf log set_otherConf].
    + exists nm, ver, true, rp, (with_https (with_crl buf o) so).
      repeat (split; [assumption|]).
      split; [apply lookup_insert_eq|].
      repeat (split; [assumption|]).
      split; [discriminate|]. intros _. exists (with_crl buf o).
      split; [reflexivity|]. repeat (split; [assumption|]).
      split; [intros Hc; contradiction|]. intros _.
      split; [eexists; reflexivity|]. exact (proj2 (Hyes Hrp0)).
    + exists nm, ver, true, rp, so. repeat (split; [assumption|]). exact Hon.
Qed.

End Invariant.

(** ** The bundles of the running module *)

(** X2.  In every state of the initialized module [get('loggerOptions')]
    hands back the logger bundle: its name is the setting [service.name];
    its first stream is the log file, at the level and path of the
    settings; a second stream, the standard output at its own level, is
    there exactly when [logging.stdout] is true, and there is no other
    stream; and its serializer table holds the response serializer under
    ['res'] and the certificate serializer under ['cert']. *)
Theorem logger_bundle_invariant `{Platform} (s : State) :
  reachable s ->
  exists lo lvl pth (out : bool) nm,
    get "loggerOptions" s = (Return (GotBundle (BLogger lo)), s)
    /\ store_get (convictConf s) "logging.logfileLevel" = Some lvl
    /\ store_get (convictConf s) "logging.logfile" = Some pth
    /\ store_get (convictConf s) "logging.stdout" = Some (VBool out)
    /\ store_get (convictConf s) "service.name" = Some nm
    /\ logger_name lo = nm
    /\ (out = false -> streams lo = [ {| level := lvl; target := ToPath pth |} ])
    /\ (out = true ->
        exists l,
          store_get (convictConf s) "logging.stdoutLevel" = Some l
          /\ streams lo = [ {| level := lvl; target := ToPath pth |};
                            {| level := l; target := ToStdout |} ])
    /\ serializers lo !! "res" = Some SerRes
    /\ serializers lo !! "cert" = Some SerCert.
Proof.
  intros Hs.
  destruct (reachable_bundles s Hs) as (_ & (Hres & Hcert) & _ & Hlog & _).
  destruct Hlog as (lvl & pth & out & nm & strs & Hlvl & Hpth & Hout & Hnm & Hstrs & Hlo).
  eexists _, lvl, pth, out, nm.
  split; [apply get_bundle; exact Hlo|].
  repeat (split; [assumption|]). cbn [logger_name streams serializers].
  split; [reflexivity|].
  split; [intros ->; exact Hstrs|].
  split; [intros ->; exact Hstrs|].
  split; assumption.
Qed.

Lemma logger_bundle_invariant_witness :
  reachable (H := sample_platform) tls_state
  /\ exists lo, get "loggerOptions" tls_state = (Return (GotBundle (BLogger lo)), tls_state)
       /\ serializers lo !! "res" = Some SerRes.
Proof.
  split; [exact tls_state_reachable|].
  destruct (logger_bundle_invariant (H := sample_platform) tls_state tls_state_reachable)
    as (lo & lvl & pth & out & nm & Hget & _ & _ & _ & _ & _ & _ & _ & Hres & _).
  exists lo. split; assumption.
Defined.

(** X3.  In every state of the initialized module the body-parser bundle
    carries the setting [maxBodySize] with [mapParams] false, and the
    throttle bundle carries the settings [throttle.burst] and
    [throttle.rate] with [ip] true. *)
Theorem body_and_throttle_invariant `{Platform} (s : State) :
  reachable s ->
  exists sz b r bo to,
    store_get (convictConf s) "maxBodySize" = Some sz
    /\ store_get (convictConf s) "throttle.burst" = Some b
    /\ store_get (convictConf s) "throttle.rate" = Some r
    /\ get "bodyParserOptions" s = (Return (GotBundle (BBodyParser bo)), s)
    /\ maxBodySize bo = sz /\ mapParams bo = false
    /\ get "throttleOptions" s = (Return (GotBundle (BThrottle to)), s)
    /\ burst to = b /\ rate to = r /\ ip to = true.
Proof.
  intros Hs.
  destruct (reachable_bundles s Hs) as (_ & _ & _ & _ & Hbody & Hthr & _).
  destruct Hbody as (sz & Hsz & Hbo). destruct Hthr as (b & r & Hb & Hr & Hto).
  eexists sz, b, r, _, _. repeat (split; [assumption|]).
  split; [apply get_bundle; exact Hbo|]. split; [reflexivity|]. split; [reflexivity|].
  split; [apply get_bundle; exact Hto|]. repeat split.
Qed.

Lemma body_and_throttle_invariant_witness :
  reachable (H := sample_platform) tls_state
  /\ exists bo, get "bodyParserOptions" tls_state
                 = (Return (GotBundle (BBodyParser bo)), tls_state)
       /\ maxBodySize bo = VNum 1024 /\ mapParams bo = false.
Proof.
  split; [exact tls_state_reachable|].
  destruct (body_and_throttle_invariant (H := sample_platform) tls_state
              tls_state_reachable)
    as (sz & b & r & bo & to & Hsz & _ & _ & Hget & Hbo & Hmp & _).
  exists bo. split; [exact Hget|]. split; [|exact Hmp].
  rewrite Hbo. vm_compute in Hsz. injection Hsz as <-. reflexivity.
Defined.

(** X4.  In every state of the initialized module the server bundle
    carries the settings [service.name] and [service.version] and accepts
    the single content type ['application/json']; the logger and the server
    go by the same name. *)
Theorem server_bundle_identity `{Platform} (s : State) :
  reachable s ->
  exists so lo nm ver,
    store_get (convictConf s) "service.name" = Some nm
    /\ store_get (convictConf s) "service.version" = Some ver
    /\ get "serverOptions" s = (Return (GotBundle (BServer so)), s)
    /\ get "loggerOptions" s = (Return (GotBundle (BLogger lo)), s)
    /\ name so = nm /\ version so = ver
    /\ acceptable so = ["application/json"]
    /\ logger_name lo = name so.
Proof.
  intros Hs.
  destruct (reachable_bundles s Hs) as (_ & _ & _ & Hlog & _ & _ & Hsrv & _).
  destruct Hlog as (lvl & pth & out & nm & strs & _ & _ & _ & Hnm & _ & Hlo).
  destruct Hsrv as (nm' & ver & en & rp & so & Hnm' & Hver & _ & _ & Hso
                    & Hname & Hversion & Hacc & _).
  eexists so, _, nm, ver. repeat (split; [assumption|]).
  split; [apply get_bundle; exact Hso|].
  split; [apply get_bundle; exact Hlo|].
  assert (nm' = nm) as -> by congruence.
  repeat (split; [assumption|]). cbn [logger_name]. symmetry. exact Hname.
Qed.

Lemma server_bundle_identity_witness :
  reachable (H := sample_platform) tls_state
  /\ exists so, get "serverOptions" tls_state = (Return (GotBundle (BServer so)), tls_state)
       /\ name so = VStr "BLPAPI-HTTP"
       /\ acceptable so = ["application/json"].
Proof.
  split; [exact tls_state_reachable|].
  destruct (server_bundle_identity (H := sample_platform) tls_state tls_state_reachable)
    as (so & lo & nm & ver & Hnm & _ & Hget & _ & Hname & _ & Hacc & _).
  exists so. split; [exact Hget|]. split; [|exact Hacc].
  rewrite Hname. vm_compute in Hnm. injection Hnm as <-. reflexivity.
Defined.

(** X5.  Mutual TLS is never relaxed: in every state of the module
    initialized with [https.enable] true, reloads of the revocation list
    included, the server bundle has [httpsServerOptions] with [requestCert]
    and [rejectUnauthorized] both true. *)
Theorem mutual_tls_invariant `{Platform} (s : State) :
  reachable s ->
  store_get (convictConf s) "https.enable" = Some (VBool true) ->
  exists so o,
    serverOptions_of s = Some so
    /\ httpsServerOptions so = Some o
    /\ requestCert o = true
    /\ rejectUnauthorized o = true.
Proof.
  intros Hs Hen.
  destruct (reachable_bundles s Hs) as (_ & _ & _ & _ & _ & _ & Hsrv & _).
  destruct Hsrv as (nm & ver & en & rp & so & _ & _ & Hen' & _ & Hso & _ & _ & _ & _ & Hon).
  assert (en = true) as -> by congruence.
  destruct (Hon eq_refl) as (o & Ho & Hrc & Hru & _).
  exists so, o. unfold serverOptions_of. rewrite Hso. repeat split; assumption.
Qed.

Lemma mutual_tls_invariant_witness :
  (reachable (H := sample_platform) (snd (crl_changed tls_fs "/etc/gw/crl.pem" tls_state))
   /\ store_get (convictConf (snd (crl_changed tls_fs "/etc/gw/crl.pem" tls_state)))
        "https.enable" = Some (VBool true))
  /\ exists so o,
       serverOptions_of (snd (crl_changed tls_fs "/etc/gw/crl.pem" tls_state)) = Some so
       /\ httpsServerOptions so = Some o
       /\ requestCert o = true
       /\ rejectUnauthorized o = true.
Proof.
  assert (Hr : reachable (H := sample_platform)
                 (snd (crl_changed tls_fs "/etc/gw/crl.pem" tls_state))).
  { apply reach_change; [exact tls_state_reachable|].
    vm_compute. apply list_elem_of_here. }
  assert (Hen : store_get (convictConf (snd (crl_changed tls_fs "/etc/gw/crl.pem" tls_state)))
                  "https.enable" = Some (VBool true)) by (vm_compute; reflexivity).
  split; [split; assumption|].
  exact (mutual_tls_invariant (H := sample_platform) _ Hr Hen).
Defined.

(** X6.  At most one watch is ever armed, and only on the configured
    revocation list: in every state of the initialized module the watches
    are the single path resolved from [https.crl] when [https.enable] is
    true and [https.crl] is not empty, and none otherwise; and the server
    bundle holds a revocation buffer exactly when a watch is armed. *)
Theorem watch_invariant `{Platform} (s : State) :
  reachable s ->
  exists (en : bool) rp,
    store_get (convictConf s) "https.enable" = Some (VBool en)
    /\ store_get (convictConf s) "https.crl" = Some (VStr rp)
    /\ watches s =
         (if en && negb (String.eqb rp "") then [path_resolve __dirname rp] else [])
    /\ (is_Some ((serverOptions_of s ≫= httpsServerOptions) ≫= crl)
        <-> watches s <> []).
Proof.
  intros Hs.
  destruct (reachable_bundles s Hs) as (_ & _ & _ & _ & _ & _ & Hsrv & _).
  destruct Hsrv as (nm & ver & en & rp & so & _ & _ & Hen & Hrp & Hso & _ & _ & _ & Hoff & Hon).
  exists en, rp. split; [exact Hen|]. split; [exact Hrp|].
  unfold serverOptions_of. rewrite Hso. cbn [mbind option_bind].
  destruct en; cbn [andb].
  - destruct (Hon eq_refl) as (o & Ho & _ & _ & Hno & Hyes). rewrite Ho.
    cbn [mbind option_bind].
    destruct (String.eqb_spec rp "") as [Hrp0|Hrp0]; cbn [negb].
    + destruct (Hno Hrp0) as (Hc & Hw). rewrite Hc, Hw.
      split; [reflexivity|]. split; [intros [? ?]; discriminate|congruence].
    + destruct (Hyes Hrp0) as (Hc & Hw). rewrite Hw.
      split; [reflexivity|]. split; [discriminate|intros _; exact Hc].
  - destruct (Hoff eq_refl) as (Hnone & Hw). rewrite Hnone, Hw.
    split; [reflexivity|]. split; [intros [? ?]; discriminate|congruence].
Qed.

Lemma watch_invariant_witness :
  reachable (H := sample_platform) tls_state
  /\ watches tls_state = ["/etc/gw/crl.pem"].
Proof.
  split; [exact tls_state_reachable|].
  destruct (watch_invariant (H := sample_platform) tls_state tls_state_reachable)
    as (en & rp & Hen & Hrp & Hw & _).
  vm_compute in Hen. injection Hen as <-.
  vm_compute in Hrp. injection Hrp as <-.
  rewrite Hw. reflexivity.
Defined.

(** X7.  In every state of the initialized module the session bundle
    copies the settings [api.host] and [api.port]; it authorizes on startup
    exactly when the application name is not empty, and exactly then it
    carries an authentication string; and a module that runs with a
    non-empty application name runs with the mode ['APPLICATION_ONLY']. *)
Theorem session_bundle_invariant `{Platform} (s : State) :
  reachable s ->
  exists se host port appName mode,
    store_get (convictConf s) "api.host" = Some host
    /\ store_get (convictConf s) "api.port" = Some port
    /\ store_get (convictConf s) "api.authenticationAppName" = Some (VStr appName)
    /\ store_get (convictConf s) "api.authenticationMode" = Some (VStr mode)
    /\ get "sessionOptions" s = (Return (GotBundle (BSession se)), s)
    /\ serverHost (blpapiSessionOptions se) = host
    /\ serverPort (blpapiSessionOptions se) = port
    /\ (authorizeOnStartup se = true <-> appName <> "")
    /\ (is_Some (authenticationOptions (blpapiSessionOptions se)) <-> appName <> "")
    /\ (appName <> "" -> mode = "APPLICATION_ONLY").
Proof.
  intros Hs.
  destruct (reachable_bundles s Hs) as (_ & _ & _ & _ & _ & _ & _ & Hses).
  destruct Hses as (host & port & appName & mode & Hhost & Hport & Happ & Hmode & Hok & Hse).
  eexists _, host, port, appName, mode. repeat (split; [assumption|]).
  split; [apply get_bundle; exact Hse|].
  cbn [blpapiSessionOptions serverHost serverPort authorizeOnStartup authenticationOptions].
  split; [reflexivity|]. split; [reflexivity|].
  split; [apply bool_decide_eq_true|].
  split; [|exact Hok].
  destruct (decide (appName = "")) as [->|Hne].
  - split; [intros [? ?]; discriminate|congruence].
  - split; [intros _; exact Hne|intros _; eexists; reflexivity].
Qed.

Lemma session_bundle_invariant_witness :
  reachable (H := sample_platform) tls_state
  /\ exists se, get "sessionOptions" tls_state = (Return (GotBundle (BSession se)), tls_state)
       /\ authorizeOnStartup se = true.
Proof.
  split; [exact tls_state_reachable|].
  destruct (session_bundle_invariant (H := sample_platform) tls_state tls_state_reachable)
    as (se & host & port & appName & mode & _ & _ & Happ & _ & Hget & _ & _ & Hauth & _).
  exists se. split; [exact Hget|]. apply Hauth.
  vm_compute in Happ. injection Happ as <-. discriminate.
Defined.

(** ** The accessor on the running module *)

Lemma default_state_run :
  initialize (H := sample_platform) ∅ ∅ ∅ (loaded ∅) = (Return tt, default_state).
Proof. vm_compute. reflexivity. Qed.

Lemma default_state_reachable : reachable (H := sample_platform) default_state.
Proof. eapply reach_initialize. exact default_state_run. Qed.

Lemma reachable_own_property `{Platform} s name :
  reachable s -> (is_Some (otherConf s !! name) <-> name ∈ bundle_names).
Proof.
  intros Hs. destruct (reachable_bundles s Hs) as (_ & _ & Hdom & _).
  rewrite <- elem_of_dom, Hdom. unfold bundle_names.
  rewrite !elem_of_union, !elem_of_singleton, list_elem_of_In. cbn [In].
  intuition congruence.
Qed.

(** X10.  What [get] answers in every state of the initialized module: one
    of the five bundle names yields its bundle; a name inherited from
    [Object.prototype] yields the inherited member, and the store is not
    consulted; every other name goes to the store, which answers with the
    value or with not-found. *)
Theorem get_on_running_module `{Platform} (s : State) (name : string) :
  reachable s ->
  (name ∈ bundle_names ->
     exists b, otherConf s !! name = Some b /\ get name s = (Return (GotBundle b), s))
  /\ (name ∈ Object_prototype -> get name s = (Return (GotInherited name), s))
  /\ (name ∉ bundle_names -> name ∉ Object_prototype ->
      get name s =
        match store_get (convictConf s) name with
        | Some v => (Return (GotValue v), s)
        | None => (Throw (NotFound name), s)
        end).
Proof.
  intros Hs. pose proof (reachable_own_property s name Hs) as Hown.
  split; [|split].
  - intros Hin. apply Hown in Hin as [b Hb]. exists b.
    split; [exact Hb|apply get_bundle; exact Hb].
  - intros Hin.
    assert (Hnot : name ∉ bundle_names).
    { unfold Object_prototype in Hin. unfold bundle_names.
      intros Hb. apply list_elem_of_In in Hin, Hb. cbn [In] in Hin, Hb.
      intuition (subst; discriminate). }
    assert (Hnone : otherConf s !! name = None).
    { destruct (otherConf s !! name) eqn:Hl; [|reflexivity].
      destruct Hnot. apply Hown. eexists. reflexivity. }
    unfold get, has_property. rewrite Hnone.
    rewrite (bool_decide_eq_true_2 (name ∈ Object_prototype)) by exact Hin.
    rewrite orb_true_r. reflexivity.
  - intros Hnot Hproto. apply get_delegates; [|exact Hproto].
    destruct (otherConf s !! name) eqn:Hl; [|reflexivity].
    destruct Hnot. apply Hown. eexists. reflexivity.
Qed.

Lemma get_on_running_module_witness :
  (reachable (H := sample_platform) default_state
   /\ ("https.enable" ∉ bundle_names) /\ ("https.enable" ∉ Object_prototype))
  /\ get "https.enable" default_state = (Return (GotValue (VBool false)), default_state).
Proof.
  assert (H1 : "https.enable" ∉ bundle_names).
  { intros Hin. apply list_elem_of_In in Hin. cbn [In bundle_names] in Hin.
    intuition discriminate. }
  assert (H2 : "https.enable" ∉ Object_prototype).
  { intros Hin. apply list_elem_of_In in Hin. cbn [In Object_prototype] in Hin.
    intuition discriminate. }
  split; [split; [exact default_state_reachable|split; assumption]|].
  destruct (get_on_running_module (H := sample_platform) default_state "https.enable"
              default_state_reachable) as (_ & _ & Hstore).
  rewrite (Hstore H1 H2).
  replace (store_get (convictConf default_state) "https.enable")
    with (Some (VBool false)) by (vm_compute; reflexivity).
  reflexivity.
Defined.

Lemma schema_names_free e :
  e ∈ schema ->
  (dotted (e_path e) ∉ bundle_names) /\ (dotted (e_path e) ∉ Object_prototype).
Proof.
  assert (Hall : forallb (fun e => bool_decide ((dotted (e_path e) ∉ bundle_names)
                                               /\ (dotted (e_path e) ∉ Object_prototype)))
                   schema = true) by (vm_compute; reflexivity).
  rewrite forallb_forall in Hall. intros He.
  apply list_elem_of_In in He. apply Hall in He.
  apply bool_decide_eq_true_1 in He. exact He.
Qed.

(** X11.  No setting is shadowed: in every state of the initialized module
    [get] answers the dotted name of every entry of the schema with a value
    of the store, never with a bundle, an inherited member or not-found,
    and that value passes the format of the entry. *)
Theorem get_reads_every_setting `{Platform} (s : State) (e : SchemaEntry) :
  reachable s ->
  e ∈ schema ->
  exists v,
    get (dotted (e_path e)) s = (Return (GotValue v), s)
    /\ check_format (e_format e) v = true.
Proof.
  intros Hs He.
  destruct (reachable_bundles s Hs) as (Hv & _).
  destruct (valid_entry _ e Hv He) as (v & Hw & Hf).
  destruct (schema_names_free e He) as (Hb & Hp).
  exists v. split; [|exact Hf].
  rewrite get_delegates; [|idtac|exact Hp].
  - unfold store_get. rewrite (schema_dotted e He), Hw. reflexivity.
  - destruct (otherConf s !! dotted (e_path e)) eqn:Hl; [|reflexivity].
    destruct Hb. apply (reachable_own_property s _ Hs). eexists. exact Hl.
Qed.

Lemma get_reads_every_setting_witness :
  (reachable (H := sample_platform) tls_state /\ port_entry ∈ schema)
  /\ exists v, get "port" tls_state = (Return (GotValue v), tls_state)
       /\ check_format (H := sample_platform) FPort v = true.
Proof.
  assert (Hin : port_entry ∈ schema).
  { apply (list_elem_of_lookup_2 schema 4%nat). reflexivity. }
  split; [split; [exact tls_state_reachable|exact Hin]|].
  exact (get_reads_every_setting (H := sample_platform) tls_state port_entry
           tls_state_reachable Hin).
Defined.

(** ** Reloads and subscriptions *)

(** X12.  Whatever its outcome, a run of the callback of the watch calls
    no listener of another event and sends no other payload: every
    delivery it adds is of ['change'] with the payload ['https.crl'], to a
    listener registered for ['change'], and there is none when the file
    could not be read. *)
Theorem reload_delivers_only_change `{Platform} (fs : FS) (p : string) (s : State)
    (l : Listener) (ev payload : string) :
  EDeliver l ev payload ∈ effects (snd (crl_changed fs p s)) ->
  EDeliver l ev payload ∈ effects s
  \/ (ev = "change" /\ payload = "https.crl"
      /\ l ∈ default [] (listeners s !! "change")
      /\ is_Some (fs !! p)).
Proof.
  rewrite crl_changed_cases.
  assert (Hread : forall es, EDeliver l ev payload ∈ es ++ [EReadFileSync p] ->
                             EDeliver l ev payload ∈ es).
  { intros es Hin. apply elem_of_app in Hin as [Hin|Hin]; [exact Hin|].
    apply list_elem_of_singleton in Hin. discriminate Hin. }
  destruct (fs !! p) as [buf|] eqn:Hfile.
  - destruct (serverOptions_of s) as [so|].
    + destruct (httpsServerOptions so) as [o|]; cbn [snd effects log set_otherConf].
      * intros Hin. apply elem_of_app in Hin as [Hin|Hin].
        -- left. apply Hread. exact Hin.
        -- right. apply list_elem_of_fmap in Hin as (l' & Heq & Hl').
           injection Heq as -> -> ->. repeat split; try assumption. eexists; reflexivity.
      * intros Hin. left. apply Hread. exact Hin.
    + cbn [snd effects log]. intros Hin. left. apply Hread. exact Hin.
  - cbn [snd effects log]. intros Hin. left. apply Hread. exact Hin.
Qed.

Lemma reload_delivers_only_change_witness :
  EDeliver 7%nat "change" "https.crl"
    ∈ effects (snd (crl_changed tls_fs "/etc/gw/crl.pem" subscribed_state))
  /\ (EDeliver 7%nat "change" "https.crl" ∈ effects subscribed_state
      \/ ("change" = "change" /\ "https.crl" = "https.crl"
          /\ 7%nat ∈ default [] (listeners subscribed_state !! "change")
          /\ is_Some (tls_fs !! "/etc/gw/crl.pem"))).
Proof.
  assert (Hin : EDeliver 7%nat "change" "https.crl"
                  ∈ effects (snd (crl_changed tls_fs "/etc/gw/crl.pem" subscribed_state))).
  { rewrite crl_changed_cases.
    replace (tls_fs !! "/etc/gw/crl.pem") with (Some [Byte.x01])
      by (vm_compute; reflexivity).
    destruct (serverOptions_of subscribed_state) as [so|] eqn:Hso;
      [|vm_compute in Hso; discriminate Hso].
    destruct (httpsServerOptions so) as [o|] eqn:Ho.
    - cbn [snd effects log set_otherConf]. apply elem_of_app. right.
      replace (listeners subscribed_state !! "change") with (Some [7%nat])
        by (vm_compute; reflexivity).
      apply list_elem_of_here.
    - exfalso. vm_compute in Hso. injection Hso as <-. discriminate Ho. }
  split; [exact Hin|].
  exact (reload_delivers_only_change (H := sample_platform) _ _ _ _ _ _ Hin).
Defined.

(** X13.  The last reload wins: after two changes of the watched file, both
    readable, the bundles are those a single reload of the second contents
    would have left, and the revocation buffer is the second contents. *)
Theorem reload_last_wins `{Platform} (fs1 fs2 : FS) (p : string) (s : State)
    (b1 b2 : Buffer) :
  reachable s ->
  p ∈ watches s ->
  fs1 !! p = Some b1 ->
  fs2 !! p = Some b2 ->
  otherConf (snd (crl_changed fs2 p (snd (crl_changed fs1 p s))))
    = otherConf (snd (crl_changed fs2 p s))
  /\ ((serverOptions_of (snd (crl_changed fs2 p (snd (crl_changed fs1 p s))))
        ≫= httpsServerOptions) ≫= crl) = Some b2.
Proof.
  intros Hs Hp H1 H2.
  destruct (reachable_inv s Hs) as (_ & _ & so & Hso & Hw & _).
  assert (Hne : watches s <> []) by (intros Hn; rewrite Hn in Hp; inversion Hp).
  destruct (Hw Hne) as [o Ho].
  rewrite (crl_changed_cases fs1), H1, Hso, Ho. cbn [snd].
  rewrite !(crl_changed_cases fs2), H2, Hso, Ho.
  rewrite serverOptions_of_log, serverOptions_of_insert.
  cbn [httpsServerOptions with_https snd].
  rewrite serverOptions_of_log, serverOptions_of_insert.
  cbn [otherConf log set_otherConf mbind option_bind httpsServerOptions with_https
       crl with_crl].
  split; [|reflexivity]. apply insert_insert_eq.
Qed.

Lemma reload_last_wins_witness :
  (reachable (H := sample_platform) tls_state
   /\ "/etc/gw/crl.pem" ∈ watches tls_state
   /\ tls_fs !! "/etc/gw/crl.pem" = Some [Byte.x01]
   /\ crl_replaced_fs !! "/etc/gw/crl.pem" = Some [Byte.x02; Byte.x03])
  /\ ((serverOptions_of
         (snd (crl_changed crl_replaced_fs "/etc/gw/crl.pem"
                 (snd (crl_changed tls_fs "/etc/gw/crl.pem" tls_state))))
         ≫= httpsServerOptions) ≫= crl) = Some [Byte.x02; Byte.x03].
Proof.
  assert (Hin : "/etc/gw/crl.pem" ∈ watches tls_state)
    by (vm_compute; apply list_elem_of_here).
  assert (H1 : tls_fs !! "/etc/gw/crl.pem" = Some [Byte.x01])
    by (vm_compute; reflexivity).
  assert (H2 : crl_replaced_fs !! "/etc/gw/crl.pem" = Some [Byte.x02; Byte.x03])
    by apply lookup_insert_eq.
  split; [repeat split; try assumption; exact tls_state_reachable|].
  exact (proj2 (reload_last_wins (H := sample_platform) tls_fs crl_replaced_fs
                  "/etc/gw/crl.pem" tls_state _ _ tls_state_reachable Hin H1 H2)).
Defined.

(** X14.  A listener that subscribes to ['change'] is notified by the next
    readable reload, once and after the listeners that were there; a
    listener that subscribes to any other event changes nothing of what a
    reload does. *)
Theorem subscriber_is_notified_last `{Platform} (fs : FS) (p : string) (s : State)
    (l : Listener) (ev : string) (buf : Buffer) :
  reachable s ->
  p ∈ watches s ->
  fs !! p = Some buf ->
  effects (snd (crl_changed fs p (snd (on "change" l s))))
    = effects (snd (crl_changed fs p s)) ++ [EDeliver l "change" "https.crl"]
  /\ (ev <> "change" ->
      effects (snd (crl_changed fs p (snd (on ev l s))))
        = effects (snd (crl_changed fs p s))).
Proof.
  intros Hs Hp Hfile.
  destruct (reachable_inv s Hs) as (_ & _ & so & Hso & Hw & _).
  assert (Hne : watches s <> []) by (intros Hn; rewrite Hn in Hp; inversion Hp).
  destruct (Hw Hne) as [o Ho].
  rewrite !crl_changed_cases, Hfile. unfold on, modify. cbn [snd].
  change (serverOptions_of (set_listeners _ s)) with (serverOptions_of s).
  change (serverOptions_of (set_listeners _ s)) with (serverOptions_of s).
  rewrite Hso, Ho. cbn [snd effects log set_otherConf set_listeners listeners].
  split.
  - rewrite lookup_insert_eq. cbn [from_option id].
    rewrite map_app, app_assoc. reflexivity.
  - intros Hev. rewrite lookup_insert_ne by exact Hev. reflexivity.
Qed.

Lemma subscriber_is_notified_last_witness :
  (reachable (H := sample_platform) tls_state
   /\ "/etc/gw/crl.pem" ∈ watches tls_state
   /\ tls_fs !! "/etc/gw/crl.pem" = Some [Byte.x01])
  /\ effects (snd (crl_changed tls_fs "/etc/gw/crl.pem" (snd (on "change" 7%nat tls_state))))
     = effects (snd (crl_changed tls_fs "/etc/gw/crl.pem" tls_state))
         ++ [EDeliver 7%nat "change" "https.crl"].
Proof.
  assert (Hin : "/etc/gw/crl.pem" ∈ watches tls_state)
    by (vm_compute; apply list_elem_of_here).
  assert (H1 : tls_fs !! "/etc/gw/crl.pem" = Some [Byte.x01])
    by (vm_compute; reflexivity).
  split; [repeat split; try assumption; exact tls_state_reachable|].
  exact (proj1 (subscriber_is_notified_last (H := sample_platform) tls_fs
                  "/etc/gw/crl.pem" tls_state 7%nat "error" [Byte.x01]
                  tls_state_reachable Hin H1)).
Defined.

(** ** Startup *)

Section Startup.
Context `{Platform}.

(** The initialization block up to validation. *)
Lemma initialize_store fs environ argv std file :
  config_source fs argv file ->
  initialize fs environ argv (loaded std) =
    (validate ;; install_serializers ;; build_loggerOptions ;;
     build_bodyParserOptions ;; build_throttleOptions ;;
     build_serverOptions fs ;; build_sessionOptions)
      (set_convictConf (resolve schema file environ argv)
         (set_otherConf ∅ (loaded std))).
Proof.
  intros Hfile. unfold initialize. unfold bind at 1 2 3. unfold modify at 1 2.
  destruct file as [f|]; cbn [config_source] in Hfile.
  - destruct Hfile as (p & Hcfg & Hne & Hparse). rewrite Hcfg. cbn [from_option id truthy].
    destruct (String.eqb_spec p "") as [Hp|_]; [contradiction|]. cbn [negb].
    unfold loadFile. rewrite Hparse. reflexivity.
  - rewrite Hfile. reflexivity.
Qed.

(** The three builders that only read settings, on a validated store. *)
Lemma builders_prefix fs s0 :
  valid (convictConf s0) ->
  exists s3,
    convictConf s3 = convictConf s0
    /\ watches s3 = watches s0 /\ effects s3 = effects s0
    /\ (build_loggerOptions ;; build_bodyParserOptions ;; build_throttleOptions ;;
        build_serverOptions fs ;; build_sessionOptions) s0
       = match build_serverOptions fs s3 with
         | (Return _, s4) => build_sessionOptions s4
         | (Throw e, s4) => (Throw e, s4)
         end.
Proof.
  intros Hv.
  destruct (build_loggerOptions_run s0 Hv) as (? & ? & ? & ? & ? & _ & _ & _ & _ & _ & Hlog).
  unfold bind at 1. rewrite Hlog. clear Hlog.
  set (s1 := set_otherConf _ s0).
  destruct (build_bodyParserOptions_run s1 Hv) as (? & _ & Hbody).
  unfold bind at 1. rewrite Hbody. clear Hbody.
  set (s2 := set_otherConf _ s1).
  destruct (build_throttleOptions_run s2 Hv) as (? & ? & _ & _ & Hthr).
  unfold bind at 1. rewrite Hthr. clear Hthr.
  eexists. split; [|split; [|split; [|reflexivity]]]; reflexivity.
Qed.

End Startup.

(** X8.  Startup fails fast.  When [argv.cfg] is given and the file cannot
    be read or parsed, the initialization block throws the parse error;
    when the resolved store has a violation, it throws the validation
    error of the first violation; in both cases no bundle has been built,
    no serializer installed, no file of the module read and no watch
    armed. *)
Theorem startup_fails_fast `{Platform} (fs : FS) (environ argv : gmap string value)
    (std : gmap string Serializer) :
  (truthy (default VUndefined (argv !! "cfg")) = true ->
     (forall p, argv !! "cfg" = Some (VStr p) -> fs !! p ≫= parse_config = None) ->
     exists s',
       initialize fs environ argv (loaded std)
         = (Throw (SourceParseError (default VUndefined (argv !! "cfg"))), s')
       /\ otherConf s' = ∅ /\ stdSerializers s' = std
       /\ watches s' = [] /\ effects s' = [])
  /\ (forall file k f,
        config_source fs argv file ->
        first_violation schema (resolve schema file environ argv) = Some (k, f) ->
        exists s',
          initialize fs environ argv (loaded std)
            = (Throw (SchemaValidationError k f), s')
          /\ otherConf s' = ∅ /\ stdSerializers s' = std
          /\ watches s' = [] /\ effects s' = []).
Proof.
  split.
  - intros Ht Hbad.
    exists (set_convictConf (resolve schema None environ argv)
              (set_otherConf ∅ (loaded std))).
    split; [|repeat split].
    unfold initialize. unfold bind at 1 2 3. unfold modify at 1 2. rewrite Ht.
    unfold loadFile.
    destruct (argv !! "cfg") as [[| | | |p|]|] eqn:Hcfg; cbn [from_option id];
      try reflexivity.
    rewrite (Hbad p eq_refl). reflexivity.
  - intros file k f Hfile Hbad.
    exists (set_convictConf (resolve schema file environ argv)
              (set_otherConf ∅ (loaded std))).
    split; [|repeat split].
    rewrite (initialize_store _ _ _ _ file Hfile).
    unfold bind at 1. unfold validate. cbn [convictConf set_convictConf].
    rewrite Hbad. reflexivity.
Qed.

Lemma startup_fails_fast_witness :
  (config_source (H := sample_platform) ∅ port_zero_argv None
   /\ first_violation (H := sample_platform) schema (resolve schema None ∅ port_zero_argv)
        = Some (["port"], FPort))
  /\ exists s',
       initialize (H := sample_platform) ∅ ∅ port_zero_argv (loaded ∅)
         = (Throw (SchemaValidationError ["port"] FPort), s')
       /\ otherConf s' = ∅.
Proof.
  assert (Hsrc : config_source (H := sample_platform) ∅ port_zero_argv None)
    by (vm_compute; reflexivity).
  assert (Hbad : first_violation (H := sample_platform) schema
                   (resolve schema None ∅ port_zero_argv) = Some (["port"], FPort))
    by (vm_compute; reflexivity).
  split; [split; assumption|].
  destruct (startup_fails_fast (H := sample_platform) ∅ ∅ port_zero_argv ∅)
    as (_ & Hval).
  destruct (Hval None _ _ Hsrc Hbad) as (s' & Hrun & Hoc & _).
  exists s'. split; assumption.
Defined.

(** X9.  When startup succeeds.  The initialization block runs to its end
    exactly when the store resolved from the sources passes validation,
    the TLS material can be read if TLS is enabled (key, certificate and
    trust anchor, and the revocation list when one is configured), and the
    authentication mode is ['APPLICATION_ONLY'] if an application name is
    configured. *)
Theorem startup_succeeds_iff `{Platform} (fs : FS) (environ argv : gmap string value)
    (std : gmap string Serializer) (file : option value) (C : value) :
  config_source fs argv file ->
  C = resolve schema file environ argv ->
  (exists s, initialize fs environ argv (loaded std) = (Return tt, s))
  <->
  (valid C
   /\ exists (en : bool) kp cp tp rp appName mode,
        store_get C "https.enable" = Some (VBool en)
        /\ store_get C "https.key" = Some (VStr kp)
        /\ store_get C "https.cert" = Some (VStr cp)
        /\ store_get C "https.ca" = Some (VStr tp)
        /\ store_get C "https.crl" = Some (VStr rp)
        /\ store_get C "api.authenticationAppName" = Some (VStr appName)
        /\ store_get C "api.authenticationMode" = Some (VStr mode)
        /\ (en = true ->
            is_Some (fs !! path_resolve __dirname kp)
            /\ is_Some (fs !! path_resolve __dirname cp)
            /\ is_Some (fs !! path_resolve __dirname tp)
            /\ (rp = "" \/ is_Some (fs !! path_resolve __dirname rp)))
        /\ (appName = "" \/ mode = "APPLICATION_ONLY")).
Proof.
  intros Hfile ->. rewrite (initialize_store _ _ _ _ file Hfile).
  set (C := resolve schema file environ argv).
  set (sB := set_convictConf C _).
  unfold bind at 1. unfold validate at 1.
  change (convictConf sB) with C.
  destruct (first_violation schema C) as [[k f]|] eqn:Hvalid.
  { split; [intros [s Hs]; discriminate Hs|intros [Hv _]; unfold valid in Hv; congruence]. }
  unfold bind at 1. unfold install_serializers, modify.
  set (s0 := set_stdSerializers _ sB).
  assert (Hv0 : valid (convictConf s0)) by exact Hvalid.
  destruct (builders_prefix fs s0 Hv0) as (s3 & Hc3 & _ & _ & ->).
  assert (Hc3' : convictConf s3 = C) by exact Hc3.
  assert (Hv3 : valid (convictConf s3)) by (rewrite Hc3'; exact Hvalid).
  split.
  - intros [s Hs].
    destruct (build_serverOptions fs s3) as [[[]|e] s4] eqn:Hsrv; [|discriminate Hs].
    destruct (build_serverOptions_returns fs s3 s4 Hv3 Hsrv)
      as (nm & ver & en & kp & cp & tp & rp & so & _ & _ & Hen & Hkp & Hcp & Htp & Hrp
          & _ & Hc4 & _ & _ & _ & _ & _ & _ & Hon).
    assert (Hv4 : valid (convictConf s4)) by (rewrite Hc4; exact Hv3).
    destruct (build_sessionOptions_run s4 Hv4)
      as (host & port & appName & mode & _ & _ & Happ & Hmode & Hses).
    rewrite Hses in Hs. rewrite Hc4, Hc3' in Happ, Hmode. rewrite Hc3' in *.
    split; [exact Hvalid|].
    exists en, kp, cp, tp, rp, appName, mode. repeat (split; [assumption|]).
    split.
    + intros Ht. destruct (Hon Ht) as (o & _ & Hk & Hc & Ha & _ & _ & _ & Hyes).
      repeat (split; [eexists; eassumption|]).
      destruct (decide (rp = "")) as [Hrp0|Hrp0]; [left; exact Hrp0|right].
      destruct (Hyes Hrp0) as (Hcrl & Hsome & _). rewrite <- Hcrl. exact Hsome.
    + destruct (decide (appName = "")) as [Ha|Ha]; [left; exact Ha|right].
      destruct (decide (mode = "APPLICATION_ONLY")) as [Hm|Hm];
        [exact Hm|discriminate Hs].
  - intros (_ & en & kp & cp & tp & rp & appName & mode & Hen & Hkp & Hcp & Htp & Hrp
            & Happ & Hmode & Htls & Hauth).
    rewrite <- Hc3' in Hen, Hkp, Hcp, Htp, Hrp, Happ, Hmode.
    setting Hv3 17%nat "service.name" nm Hnm Fnm.
    setting Hv3 18%nat "service.version" ver Hver Fver.
    assert (Hsrv : exists s4, build_serverOptions fs s3 = (Return tt, s4)).
    { destruct en.
      - pose proof (build_serverOptions_tls fs s3 _ _ _ _ _ _ _
                      Hnm Hver Hen Hkp Hcp Htp Hrp eq_refl) as Ht.
        destruct (Htls eq_refl) as ([k Hk] & [c Hc] & [a Ha] & Hcrl).
        destruct (build_serverOptions fs s3) as [[[]|e] s4]; [exists s4; reflexivity|].
        destruct Ht as (p & _ & Hp & Hwhich & _). exfalso.
        destruct Hwhich as [->|[->|[->|[-> Hne]]]]; try congruence.
        destruct Hcrl as [->|[r Hr]]; congruence.
      - eexists. apply (build_serverOptions_plain fs s3 _ _ _ Hnm Hver Hen eq_refl). }
    destruct Hsrv as [s4 Hsrv]. rewrite Hsrv.
    destruct (build_serverOptions_returns fs s3 s4 Hv3 Hsrv)
      as (? & ? & ? & ? & ? & ? & ? & ? & _ & _ & _ & _ & _ & _ & _ & _ & Hc4 & _).
    assert (Hv4 : valid (convictConf s4)) by (rewrite Hc4; exact Hv3).
    destruct (build_sessionOptions_run s4 Hv4)
      as (host & port & appName' & mode' & _ & _ & Happ' & Hmode' & Hses).
    rewrite Hc4 in Happ', Hmode'.
    assert (appName' = appName) as -> by congruence.
    assert (mode' = mode) as -> by congruence.
    rewrite Hses.
    destruct (decide (appName = "")) as [Ha|Ha]; [eexists; reflexivity|].
    destruct Hauth as [Ha'|Hm]; [contradiction|].
    destruct (decide (mode = "APPLICATION_ONLY")) as [_|Hm']; [eexists; reflexivity|].
    contradiction.
Qed.

Lemma startup_succeeds_iff_witness :
  (config_source (H := sample_platform) crt_removed_fs tls_argv None
   /\ resolve schema None ∅ tls_argv = resolve schema None ∅ tls_argv)
  /\ ~ exists s,
        initialize (H := sample_platform) crt_removed_fs ∅ tls_argv (loaded ∅)
          = (Return tt, s).
Proof.
  assert (Hsrc : config_source (H := sample_platform) crt_removed_fs tls_argv None)
    by (vm_compute; reflexivity).
  split; [split; [exact Hsrc|reflexivity]|].
  intros Hex.
  apply (startup_succeeds_iff (H := sample_platform) crt_removed_fs ∅ tls_argv ∅ None
           _ Hsrc eq_refl) in Hex.
  destruct Hex as (_ & en & kp & cp & tp & rp & appName & mode & Hen & _ & Hcp & _ & _
                   & _ & _ & Htls & _).
  vm_compute in Hen. injection Hen as <-.
  vm_compute in Hcp. injection Hcp as <-.
  destruct (Htls eq_refl) as (_ & [c Hc] & _).
  vm_compute in Hc. discriminate Hc.
Defined.

(** ** Failures of the TLS reads *)

(** X15.  The TLS files are read in the order key, certificate, trust
    anchor, revocation list, and the first failure ends the construction:
    the files after it are not read.  When one of the first three cannot be
    read the server bundle is left without [httpsServerOptions]; when only
    the revocation list cannot be read the bundle has its three buffers and
    no revocation buffer; in no case is a watch armed. *)
Theorem tls_read_failure `{Platform} (fs : FS) (s s' : State) (e : exn)
    (kp cp tp rp : string) :
  valid (convictConf s) ->
  store_get (convictConf s) "https.enable" = Some (VBool true) ->
  store_get (convictConf s) "https.key" = Some (VStr kp) ->
  store_get (convictConf s) "https.cert" = Some (VStr cp) ->
  store_get (convictConf s) "https.ca" = Some (VStr tp) ->
  store_get (convictConf s) "https.crl" = Some (VStr rp) ->
  build_serverOptions fs s = (Throw e, s') ->
  exists so,
    serverOptions_of s' = Some so
    /\ watches s' = watches s
    /\ ((fs !! path_resolve __dirname kp = None
         /\ e = ReadError (path_resolve __dirname kp)
         /\ httpsServerOptions so = None
         /\ effects s' = effects s ++ [EReadFileSync (path_resolve __dirname kp)])
        \/ (is_Some (fs !! path_resolve __dirname kp)
            /\ fs !! path_resolve __dirname cp = None
            /\ e = ReadError (path_resolve __dirname cp)
            /\ httpsServerOptions so = None
            /\ effects s' = effects s ++ [EReadFileSync (path_resolve __dirname kp);
                                          EReadFileSync (path_resolve __dirname cp)])
        \/ (is_Some (fs !! path_resolve __dirname kp)
            /\ is_Some (fs !! path_resolve __dirname cp)
            /\ fs !! path_resolve __dirname tp = None
            /\ e = ReadError (path_resolve __dirname tp)
            /\ httpsServerOptions so = None
            /\ effects s' = effects s ++ [EReadFileSync (path_resolve __dirname kp);
                                          EReadFileSync (path_resolve __dirname cp);
                                          EReadFileSync (path_resolve __dirname tp)])
        \/ (rp <> ""
            /\ fs !! path_resolve __dirname rp = None
            /\ e = ReadError (path_resolve __dirname rp)
            /\ (exists o, httpsServerOptions so = Some o /\ crl o = None
                          /\ fs !! path_resolve __dirname kp = Some (key o)
                          /\ fs !! path_resolve __dirname cp = Some (cert o)
                          /\ fs !! path_resolve __dirname tp = Some (ca o))
            /\ effects s' = effects s ++ [EReadFileSync (path_resolve __dirname kp);
                                          EReadFileSync (path_resolve __dirname cp);
                                          EReadFileSync (path_resolve __dirname tp);
                                          EReadFileSync (path_resolve __dirname rp)])).
Proof.
  intros Hv Hen Hk Hc Ha Hr Hrun.
  setting Hv 17%nat "service.name" nm Hnm Fnm.
  setting Hv 18%nat "service.version" ver Hver Fver.
  unfold build_serverOptions, bind in Hrun.
  rewrite (convict_get_eq _ _ _ Hnm), (convict_get_eq _ _ _ Hver) in Hrun.
  unfold assign, modify in Hrun.
  rewrite (convict_get_eq "https.enable" (VBool true)) in Hrun by exact Hen.
  cbn [truthy] in Hrun.
  rewrite (read_setting_file_eq fs "https.key" kp) in Hrun by exact Hk.
  destruct (fs !! path_resolve __dirname kp) as [k|] eqn:Ek.
  2:{ injection Hrun as <- <-. eexists.
      split; [rewrite serverOptions_of_log; apply serverOptions_of_insert|].
      split; [reflexivity|]. left. repeat split. }
  rewrite (read_setting_file_eq fs "https.cert" cp) in Hrun by exact Hc.
  destruct (fs !! path_resolve __dirname cp) as [c|] eqn:Ec.
  2:{ injection Hrun as <- <-. eexists.
      split; [rewrite !serverOptions_of_log; apply serverOptions_of_insert|].
      split; [reflexivity|]. right. left.
      split; [eexists; reflexivity|]. repeat (split; [reflexivity|]).
      cbn [effects log set_otherConf]. rewrite <- !app_assoc. reflexivity. }
  rewrite (read_setting_file_eq fs "https.ca" tp) in Hrun by exact Ha.
  destruct (fs !! path_resolve __dirname tp) as [a|] eqn:Ea.
  2:{ injection Hrun as <- <-. eexists.
      split; [rewrite !serverOptions_of_log; apply serverOptions_of_insert|].
      split; [reflexivity|]. right. right. left.
      split; [eexists; reflexivity|]. split; [eexists; reflexivity|].
      repeat (split; [reflexivity|]).
      cbn [effects log set_otherConf]. rewrite <- !app_assoc. reflexivity. }
  unfold assign_https in Hrun.
  rewrite !serverOptions_of_log, serverOptions_of_insert in Hrun.
  rewrite (convict_get_eq "https.crl" (VStr rp)) in Hrun by exact Hr.
  cbn [truthy] in Hrun.
  destruct (String.eqb_spec rp "") as [->|Hne]; cbn [negb] in Hrun;
    [discriminate Hrun|].
  rewrite (convict_get_eq "https.crl" (VStr rp)) in Hrun by exact Hr.
  unfold resolve_from_dirname, ret, readFileSync in Hrun.
  destruct (fs !! path_resolve __dirname rp) as [r|] eqn:Er.
  { unfold assign_crl in Hrun.
    rewrite !serverOptions_of_log, serverOptions_of_insert in Hrun.
    discriminate Hrun. }
  injection Hrun as <- <-. eexists.
  split; [rewrite serverOptions_of_log; apply serverOptions_of_insert|].
  split; [reflexivity|]. right. right. right.
  split; [exact Hne|]. repeat (split; [reflexivity|]).
  split; [eexists; repeat split|].
  cbn [effects log set_otherConf]. rewrite <- !app_assoc. reflexivity.
Qed.

Lemma tls_read_failure_witness :
  (valid (H := sample_platform) (convictConf tls_state)
   /\ build_serverOptions (H := sample_platform) crt_removed_fs tls_state
        = (Throw (ReadError "/etc/gw/crt.pem"),
           snd (build_serverOptions (H := sample_platform) crt_removed_fs tls_state)))
  /\ exists so,
       serverOptions_of
         (snd (build_serverOptions (H := sample_platform) crt_removed_fs tls_state))
         = Some so
       /\ httpsServerOptions so = None.
Proof.
  assert (Hv : valid (H := sample_platform) (convictConf tls_state))
    by (vm_compute; reflexivity).
  assert (Hrun : build_serverOptions (H := sample_platform) crt_removed_fs tls_state
                 = (Throw (ReadError "/etc/gw/crt.pem"),
                    snd (build_serverOptions (H := sample_platform) crt_removed_fs
                           tls_state)))
    by (vm_compute; reflexivity).
  split; [split; assumption|].
  destruct (tls_read_failure (H := sample_platform) crt_removed_fs tls_state _ _
              "/etc/gw/key.pem" "/etc/gw/crt.pem" "/etc/gw/ca.pem" "/etc/gw/crl.pem"
              Hv eq_refl eq_refl eq_refl eq_refl eq_refl Hrun)
    as (so & Hso & _ & Hcases).
  exists so. split; [exact Hso|].
  destruct Hcases as [(Hk & _)|[(_ & _ & _ & Hnone & _)|[(_ & _ & Ht & _)|(_ & Hr & _)]]].
  - vm_compute in Hk. discriminate Hk.
  - exact Hnone.
  - vm_compute in Ht. discriminate Ht.
  - vm_compute in Hr. discriminate Hr.
Defined.
